(** * todomvc-api: the task and person views over their repositories

    A shallow embedding of [flask/app/views/task.py],
    [flask/app/views/person.py], [common/services/task.py],
    [common/repositories/task.py] and [common/models/task.py].

    Request bodies are JSON objects holding Python values; the handlers
    run in a small state-and-exception monad over the two tables and a
    log of the repository calls they make. *)

From Stdlib Require Import ZArith Ascii String List Permutation Sorted.
From Stdlib Require Import Floats.PrimFloat.
From stdpp Require Import base option list sorting strings gmap fin_maps.

Local Open Scope string_scope.
Local Open Scope Z_scope.

(** ** Python values and strings *)

(** A value decoded from a JSON request body. *)
#[warnings="-register-all"]
Inductive value : Type :=
  | VNone
  | VBool (b : bool)
  | VInt (n : Z)
  | VFloat (f : float)
  | VStr (s : string)
  | VList (l : list value)
  | VDict (d : list (string * value)).

(** [bool(v)], which is also what [not v] negates: [None], [False], zero,
    the empty string and the empty containers are falsy. *)
Definition py_bool (v : value) : bool :=
  match v with
  | VNone => false
  | VBool b => b
  | VInt n => negb (n =? 0)
  | VFloat f => negb (PrimFloat.eqb f PrimFloat.zero)
  | VStr s => negb (String.eqb s EmptyString)
  | VList l => match l with [] => false | _ => true end
  | VDict d => match d with [] => false | _ => true end
  end.

(** [v is None] *)
Definition is_None (v : value) : bool :=
  match v with VNone => true | _ => false end.

(** [str.isspace] on one character; characters are code points below 256. *)
Definition py_isspace (c : ascii) : bool :=
  let n := nat_of_ascii c in
  ((9 <=? n) && (n <=? 13) || (28 <=? n) && (n <=? 32)
   || (n =? 133) || (n =? 160))%nat.

Fixpoint lstrip (s : string) : string :=
  match s with
  | EmptyString => EmptyString
  | String c s' => if py_isspace c then lstrip s' else s
  end.

Fixpoint rstrip (s : string) : string :=
  match s with
  | EmptyString => EmptyString
  | String c s' =>
      match rstrip s' with
      | EmptyString => if py_isspace c then EmptyString else String c EmptyString
      | r => String c r
      end
  end.

(** [s.strip()] *)
Definition strip (s : string) : string := rstrip (lstrip s).

(** [not str(v).strip()]. [str] of a string is the string itself; [str] of
    [None], of a boolean, of a number, of a list and of a dict is its
    [repr], which starts and ends with a non-space character. *)
Definition str_strip_empty (v : value) : bool :=
  match v with
  | VStr s => String.eqb (strip s) EmptyString
  | _ => false
  end.

(** ** Models *)

(** Modelled from the spec: [rococo.models.versioned_model.VersionedModel],
    the base of [Task], is not among the sources. Section 3 gives it an
    [entity_id], an [active] flag that is true unless the record is
    soft-deleted, and a [changed_on] timestamp set on every save. The
    remaining fields are those of [common/models/task.py]. *)
Record Task : Type := mkTask {
  entity_id : string;
  active : bool;
  changed_on : Z;
  person_id : string;
  title : string;
  completed : bool
}.

(** Modelled from the spec: [common.models.Person] is not among the sources.
    Section 3: an [entity_id] and a [first_name] and a [last_name], each
    optional, over the same versioned base. *)
Record Person : Type := mkPerson {
  p_entity_id : string;
  p_active : bool;
  p_changed_on : Z;
  first_name : option string;
  last_name : option string
}.

Definition set_title (s : string) (t : Task) : Task :=
  mkTask (entity_id t) (active t) (changed_on t) (person_id t) s (completed t).
Definition set_completed (b : bool) (t : Task) : Task :=
  mkTask (entity_id t) (active t) (changed_on t) (person_id t) (title t) b.
Definition set_active (b : bool) (t : Task) : Task :=
  mkTask (entity_id t) b (changed_on t) (person_id t) (title t) (completed t).
Definition set_changed_on (n : Z) (t : Task) : Task :=
  mkTask (entity_id t) (active t) n (person_id t) (title t) (completed t).

Definition set_first_name (s : string) (p : Person) : Person :=
  mkPerson (p_entity_id p) (p_active p) (p_changed_on p) (Some s) (last_name p).
Definition set_last_name (s : string) (p : Person) : Person :=
  mkPerson (p_entity_id p) (p_active p) (p_changed_on p) (first_name p) (Some s).
Definition set_p_changed_on (n : Z) (p : Person) : Person :=
  mkPerson (p_entity_id p) (p_active p) n (first_name p) (last_name p).

(** What a request takes from its surroundings: the time at which its saves
    are stamped and the identifier a newly constructed [Task] carries. *)
Record Env : Type := mkEnv {
  now : Z;
  new_entity_id : string
}.

(** [Task(person_id=..., title=..., completed=...)]: a new, active record. *)
Definition Task_new (env : Env) (pid ttl : string) (c : bool) : Task :=
  mkTask (new_entity_id env) true (now env) pid ttl c.

(** ** The store and the handler monad *)

(** A call made on a repository. *)
Inductive call : Type :=
  | CallGetOneTask (id : string)
  | CallSaveTask (id : string)
  | CallTasksByPerson (pid : string)
  | CallGetOnePerson (id : string)
  | CallSavePerson (id : string).

Record World : Type := mkWorld {
  task_table : gmap string Task;
  person_table : gmap string Person;
  calls : list call
}.

Inductive exn : Type :=
  | InputValidationError (message : string)
  | AttributeError.

Inductive outcome (A : Type) : Type :=
  | Return (a : A)
  | Raise (e : exn).
Arguments Return {A} a.
Arguments Raise {A} e.

Definition M (A : Type) : Type := World → outcome A * World.

#[export] Instance M_ret : MRet M := λ A a w, (Return a, w).
#[export] Instance M_bind : MBind M := λ A B f m w,
  match m w with
  | (Return a, w') => f a w'
  | (Raise e, w') => (Raise e, w')
  end.
#[export] Instance M_throw : MThrow exn M := λ A e w, (Raise e, w).

Definition logged (c : call) (w : World) : World :=
  mkWorld (task_table w) (person_table w) (calls w ++ [c])%list.

(** ** Repositories *)

(** Modelled from the spec: [common.repositories.base.BaseRepository] is not
    among the sources. Section 6: [save(entity) -> entity] is an
    insert-or-update that refreshes [changed_on]; the table is keyed by
    [entity_id]. *)
Definition task_repo_save (env : Env) (task : Task) : M Task := λ w,
  let saved := set_changed_on (now env) task in
  (Return saved,
   logged (CallSaveTask (entity_id task))
     (mkWorld (<[entity_id task := saved]> (task_table w))
        (person_table w) (calls w))).

(** Modelled from the spec: [BaseRepository.get_one] is not among the
    sources. Section 6: [get_one(filter) -> entity | none]; section 3: reads
    filter on [active = true]. The only filter the services pass is
    [{"entity_id": id}]. *)
Definition task_repo_get_one (id : string) : M (option Task) := λ w,
  (Return (match task_table w !! id with
           | Some t => if active t then Some t else None
           | None => None
           end),
   logged (CallGetOneTask id) w).

(** Modelled from the spec: the person repository, with the same [save] and
    [get_one] as above over the person table. *)
Definition person_repo_save (env : Env) (person : Person) : M Person := λ w,
  let saved := set_p_changed_on (now env) person in
  (Return saved,
   logged (CallSavePerson (p_entity_id person))
     (mkWorld (task_table w)
        (<[p_entity_id person := saved]> (person_table w)) (calls w))).

Definition person_repo_get_one (id : string) : M (option Person) := λ w,
  (Return (match person_table w !! id with
           | Some p => if p_active p then Some p else None
           | None => None
           end),
   logged (CallGetOnePerson id) w).

(** The rows of the task table. *)
Definition task_rows (tbl : gmap string Task) : list Task :=
  (map_to_list tbl).*2.

(** [ORDER BY changed_on DESC]: [a] may come before [b]. *)
Definition newer_first (a b : Task) : Prop := changed_on b ≤ changed_on a.

#[export] Instance newer_first_dec a b : Decision (newer_first a b).
Proof. unfold newer_first. apply _. Defined.

(** [WHERE person_id = %s AND active = true] *)
Definition owned_and_active (pid : string) (t : Task) : Prop :=
  person_id t = pid ∧ active t = true.

#[export] Instance owned_and_active_dec pid t : Decision (owned_and_active pid t).
Proof. unfold owned_and_active. apply _. Defined.

(** [adapter.execute_query(query, params)] for the query of
    [get_tasks_by_person_id_ordered]. *)
Definition execute_query (pid : string) (tbl : gmap string Task) : list Task :=
  merge_sort newer_first (filter (owned_and_active pid) (task_rows tbl)).

(** The inner loop of [get_tasks_by_person_id_ordered]: a fresh [MODEL()]
    on which every column of the row is set. *)
Definition task_of_row (row : Task) : Task :=
  mkTask (entity_id row) (active row) (changed_on row)
         (person_id row) (title row) (completed row).

(** [TaskRepository.get_tasks_by_person_id_ordered] *)
Definition get_tasks_by_person_id_ordered (pid : string) : M (list Task) := λ w,
  let results := execute_query pid (task_table w) in
  let tasks := foldl (λ tasks row, (tasks ++ [task_of_row row])%list) [] results in
  (Return tasks, logged (CallTasksByPerson pid) w).

(** ** Services *)

Module TaskService.

Definition save_task (env : Env) (task : Task) : M Task :=
  task ← task_repo_save env task;
  mret task.

Definition get_task_by_id (id : string) : M (option Task) :=
  task ← task_repo_get_one id;
  mret task.

Definition get_tasks_by_person_id (pid : string) : M (list Task) :=
  tasks ← get_tasks_by_person_id_ordered pid;
  mret tasks.

Definition delete_task (env : Env) (task : Task) : M Task :=
  let task := set_active false task in
  task ← task_repo_save env task;
  mret task.

End TaskService.

(** Modelled from the spec: [common.services.PersonService] is not among the
    sources. Section 4.2: [get_by_id(entity_id)] returns the person or a
    not-found signal; saving goes through the repository, as in
    [TaskService]. *)
Module PersonService.

Definition get_person_by_id (id : string) : M (option Person) :=
  person ← person_repo_get_one id;
  mret person.

Definition save_person (env : Env) (person : Person) : M Person :=
  person ← person_repo_save env person;
  mret person.

End PersonService.

(** ** Views *)

Inductive payload : Type :=
  | NoData
  | TaskData (task : Task)
  | TasksData (tasks : list Task)
  | PersonData (person : option Person).

(** The success envelope of [get_success_response]. *)
Record response : Type := get_success_response {
  r_message : option string;
  r_data : payload
}.

(** [task.as_dict()] keeps every field. *)
Definition as_dict (t : Task) : Task := t.

(** Modelled from the spec: [app.helpers.response.parse_request_body] is not
    among the sources. A partial-update request has every field
    independently optional (glossary); the parsed body holds each requested
    key, with the default where the request has none. *)
Definition parse_request_body (body : gmap string value) (keys : list string)
    (default_value : value) : gmap string value :=
  list_to_map ((λ k, (k, default default_value (body !! k))) <$> keys).

(** [d.get(key)] *)
Definition dict_get (d : gmap string value) (key : string) : value :=
  default VNone (d !! key).

(** [v.strip()]: only a string has the method. *)
Definition strip_method (v : value) : M string :=
  match v with
  | VStr s => mret (strip s)
  | _ => mthrow AttributeError
  end.

Definition raise_if (b : bool) (e : exn) : M unit :=
  if b then mthrow e else mret tt.

Definition msg_task_fields : string :=
  "At least one of 'title' or 'completed' must be provided.".
Definition msg_title_empty : string := "'title' cannot be empty.".
Definition msg_title_empty_if_provided : string :=
  "'title' cannot be empty if provided.".
Definition msg_task_not_found : string := "Task not found.".
Definition msg_update_permission : string :=
  "You do not have permission to update this task.".
Definition msg_delete_permission : string :=
  "You do not have permission to delete this task.".
Definition msg_person_fields : string :=
  "At least one of 'first_name' or 'last_name' must be provided.".
Definition msg_first_name_empty : string :=
  "'first_name' cannot be empty if provided.".
Definition msg_last_name_empty : string :=
  "'last_name' cannot be empty if provided.".
Definition msg_person_not_found : string := "Person not found.".

Section Views.

(** [app.helpers.response.validate_required_fields] is not among the
    sources: it either returns or raises [InputValidationError] with the
    message given here. *)
Variable validate_required_fields : gmap string value → option string.

Definition Tasks_get (person : Person) : M response :=
  tasks ← TaskService.get_tasks_by_person_id (p_entity_id person);
  let tasks_list :=
    match tasks with [] => [] | _ => as_dict <$> tasks end in
  mret (get_success_response None (TasksData tasks_list)).

Definition Tasks_post (env : Env) (person : Person)
    (body : gmap string value) : M response :=
  let parsed_body := parse_request_body body ["title"] VNone in
  match validate_required_fields parsed_body with
  | Some msg => mthrow (InputValidationError msg)
  | None => mret tt
  end;;
  let title := dict_get parsed_body "title" in
  raise_if (negb (py_bool title) || str_strip_empty title)
    (InputValidationError msg_title_empty);;
  stripped ← strip_method title;
  let new_task := Task_new env (p_entity_id person) stripped false in
  saved_task ← TaskService.save_task env new_task;
  mret (get_success_response (Some "Task created successfully.")
          (TaskData (as_dict saved_task))).

Definition TaskById_put (env : Env) (task_id : string) (person : Person)
    (body : gmap string value) : M response :=
  let parsed_body := parse_request_body body ["title"; "completed"] VNone in
  let title := dict_get parsed_body "title" in
  let completed := dict_get parsed_body "completed" in
  raise_if (is_None title && is_None completed)
    (InputValidationError msg_task_fields);;
  raise_if (negb (is_None title)
            && (negb (py_bool title) || str_strip_empty title))
    (InputValidationError msg_title_empty_if_provided);;
  existing_task ← TaskService.get_task_by_id task_id;
  match existing_task with
  | None => mthrow (InputValidationError msg_task_not_found)
  | Some existing_task =>
      raise_if (negb (String.eqb (person_id existing_task)
                                 (p_entity_id person)))
        (InputValidationError msg_update_permission);;
      existing_task ←
        (if negb (is_None title)
         then stripped ← strip_method title;
              mret (set_title stripped existing_task)
         else mret existing_task);
      let existing_task :=
        if negb (is_None completed)
        then set_completed (py_bool completed) existing_task
        else existing_task in
      TaskService.save_task env existing_task;;
      updated_task ← TaskService.get_task_by_id task_id;
      match updated_task with
      | Some updated_task =>
          mret (get_success_response (Some "Task updated successfully.")
                  (TaskData (as_dict updated_task)))
      | None => mthrow AttributeError
      end
  end.

Definition TaskById_delete (env : Env) (task_id : string) (person : Person)
    : M response :=
  existing_task ← TaskService.get_task_by_id task_id;
  match existing_task with
  | None => mthrow (InputValidationError msg_task_not_found)
  | Some existing_task =>
      raise_if (negb (String.eqb (person_id existing_task)
                                 (p_entity_id person)))
        (InputValidationError msg_delete_permission);;
      TaskService.delete_task env existing_task;;
      mret (get_success_response (Some "Task deleted successfully.") NoData)
  end.

Definition Me_get (person : Person) : M response :=
  db_person ← PersonService.get_person_by_id (p_entity_id person);
  match db_person with
  | None => mthrow (InputValidationError msg_person_not_found)
  | Some db_person =>
      mret (get_success_response None (PersonData (Some db_person)))
  end.

Definition Me_put (env : Env) (person : Person)
    (body : gmap string value) : M response :=
  let parsed_body :=
    parse_request_body body ["first_name"; "last_name"] VNone in
  let first_name := dict_get parsed_body "first_name" in
  let last_name := dict_get parsed_body "last_name" in
  raise_if (negb (py_bool first_name) && negb (py_bool last_name))
    (InputValidationError msg_person_fields);;
  raise_if (negb (is_None first_name)
            && (negb (py_bool first_name) || str_strip_empty first_name))
    (InputValidationError msg_first_name_empty);;
  raise_if (negb (is_None last_name)
            && (negb (py_bool last_name) || str_strip_empty last_name))
    (InputValidationError msg_last_name_empty);;
  db_person ← PersonService.get_person_by_id (p_entity_id person);
  match db_person with
  | None => mthrow (InputValidationError msg_person_not_found)
  | Some db_person =>
      db_person ←
        (if negb (is_None first_name)
         then stripped ← strip_method first_name;
              mret (set_first_name stripped db_person)
         else mret db_person);
      db_person ←
        (if negb (is_None last_name)
         then stripped ← strip_method last_name;
              mret (set_last_name stripped db_person)
         else mret db_person);
      PersonService.save_person env db_person;;
      saved_person ← PersonService.get_person_by_id (p_entity_id person);
      mret (get_success_response (Some "Name updated successfully.")
              (PersonData saved_person))
  end.

End Views.

(** ** Requests *)

(** One authenticated request to the API; the environment is the one the
    request runs in. *)
Inductive request : Type :=
  | GetTasks (person : Person)
  | PostTasks (env : Env) (person : Person) (body : gmap string value)
  | PutTask (env : Env) (task_id : string) (person : Person)
      (body : gmap string value)
  | DeleteTask (env : Env) (task_id : string) (person : Person)
  | GetMe (person : Person)
  | PutMe (env : Env) (person : Person) (body : gmap string value).

Definition handle (vrf : gmap string value → option string)
    (req : request) : M response :=
  match req with
  | GetTasks person => Tasks_get person
  | PostTasks env person body => Tasks_post vrf env person body
  | PutTask env task_id person body => TaskById_put env task_id person body
  | DeleteTask env task_id person => TaskById_delete env task_id person
  | GetMe person => Me_get person
  | PutMe env person body => Me_put env person body
  end.

(** The world after a sequence of requests, whatever each one answers. *)
Definition run_requests (vrf : gmap string value → option string)
    (reqs : list request) (w : World) : World :=
  foldl (λ w req, (handle vrf req w).2) w reqs.

(** The value a body gives a field: [None] where it has none. *)
Definition field (body : gmap string value) (key : string) : value :=
  default VNone (body !! key).

(** The two checks on the body of [TaskById.put] both pass. *)
Definition put_body_ok (body : gmap string value) : bool :=
  let title := field body "title" in
  let completed := field body "completed" in
  negb (is_None title && is_None completed)
  && negb (negb (is_None title)
           && (negb (py_bool title) || str_strip_empty title)).

(** Every row sits under its own [entity_id]. *)
Definition well_keyed (tbl : gmap string Task) : Prop :=
  ∀ k t, tbl !! k = Some t → entity_id t = k.

Definition p_well_keyed (tbl : gmap string Person) : Prop :=
  ∀ k p, tbl !! k = Some p → p_entity_id p = k.

(** A supplied string, or an absent field. *)
Definition opt_value (o : option string) : value :=
  match o with Some s => VStr s | None => VNone end.

(** The record [TaskById.put] saves: only the supplied fields change. *)
Definition updated_task (env : Env) (ot : option string) (c : value)
    (t : Task) : Task :=
  mkTask (entity_id t) (active t) (now env) (person_id t)
    (from_option strip (title t) ot)
    (if is_None c then completed t else py_bool c).

(** The record [Me.put] saves: only the supplied names change. *)
Definition updated_person (env : Env) (ofn oln : option string)
    (p : Person) : Person :=
  mkPerson (p_entity_id p) (p_active p) (now env)
    (from_option (λ s, Some (strip s)) (first_name p) ofn)
    (from_option (λ s, Some (strip s)) (last_name p) oln).

(** The record [delete_task] saves. *)
Definition deleted_task (env : Env) (t : Task) : Task :=
  mkTask (entity_id t) false (now env) (person_id t) (title t) (completed t).

(** A provided field that is empty or blank: the second and third check of
    [Me.put], and the second of [TaskById.put]. *)
Definition empty_if_provided (v : value) : bool :=
  negb (is_None v) && (negb (py_bool v) || str_strip_empty v).

(** The request constructs a task under the identifier [id]. *)
Definition creates (id : string) (req : request) : Prop :=
  match req with
  | PostTasks env _ _ => new_entity_id env = id
  | _ => False
  end.

(** The task [id] is in the list that [get_tasks_by_person_id(pid)]
    returns. *)
Definition listed (id pid : string) (w : World) : Prop :=
  ∃ tasks t,
    (TaskService.get_tasks_by_person_id pid w).1 = Return tasks
    ∧ t ∈ tasks ∧ entity_id t = id.

(** The task [id] is stored, and stored inactive. *)
Definition soft_deleted (id : string) (w : World) : Prop :=
  ∃ t, task_table w !! id = Some t ∧ active t = false.

(** The call writes to a table. *)
Definition is_save (c : call) : bool :=
  match c with
  | CallSaveTask _ | CallSavePerson _ => true
  | _ => false
  end.

(** ** What requests keep *)

(** A stored title or name as the handlers write it: trimmed, not empty. *)
Definition trimmed (s : string) : Prop := strip s = s ∧ s ≠ EmptyString.

Definition titles_trimmed (tbl : gmap string Task) : Prop :=
  ∀ k t, tbl !! k = Some t → trimmed (title t).

Definition name_trimmed (o : option string) : Prop :=
  ∀ s, o = Some s → trimmed s.

Definition names_trimmed (tbl : gmap string Person) : Prop :=
  ∀ k p, tbl !! k = Some p →
    name_trimmed (first_name p) ∧ name_trimmed (last_name p).

(** The row [u] a request writes to the task table [tbl]: an active row it
    fetched, with the same identifier and owner and with its title kept or
    replaced by a trimmed one, or the row of a new task. *)
Definition written_row (req : request) (tbl : gmap string Task)
    (u : Task) : Prop :=
  (∃ k t0, tbl !! k = Some t0 ∧ active t0 = true
           ∧ entity_id u = entity_id t0 ∧ person_id u = person_id t0
           ∧ (title u = title t0
              ∨ ∃ s, title u = strip s ∧ strip s ≠ EmptyString))
  ∨ (creates (entity_id u) req ∧ active u = true ∧ completed u = false
     ∧ ∃ s, title u = strip s ∧ strip s ≠ EmptyString).

(** What [Me.put] may leave in a name: the old name, or a trimmed one. *)
Definition name_written (old new : option string) : Prop :=
  new = old ∨ ∃ s, new = Some (strip s) ∧ strip s ≠ EmptyString.

(** The three checks on the body of [Me.put] all pass. *)
Definition me_body_ok (body : gmap string value) : bool :=
  let first_name := field body "first_name" in
  let last_name := field body "last_name" in
  negb (negb (py_bool first_name) && negb (py_bool last_name))
  && negb (empty_if_provided first_name)
  && negb (empty_if_provided last_name).

(** The requests whose handlers call [save_task]. *)
Definition may_write_tasks (req : request) : bool :=
  match req with
  | PostTasks _ _ _ | PutTask _ _ _ _ | DeleteTask _ _ _ => true
  | _ => false
  end.

(** The request whose handler calls [save_person]. *)
Definition may_write_persons (req : request) : bool :=
  match req with PutMe _ _ _ => true | _ => false end.

(** ** Sample data *)

(** One [validate_required_fields]: it refuses a body with a falsy field. *)
Definition refuse_falsy_fields (d : gmap string value) : option string :=
  if bool_decide (map_Forall (λ _ v, py_bool v = true) d)
  then None
  else Some "A required field is missing or empty.".

Definition alice : Person := mkPerson "p1" true 1 (Some "Alice") (Some "Liddell").
Definition bob : Person := mkPerson "p2" true 2 (Some "Bob") None.
Definition env1 : Env := mkEnv 10 "t1".
Definition env2 : Env := mkEnv 20 "t2".
Definition task1 : Task := mkTask "t1" true 10 "p1" "Buy milk" true.
Definition world0 : World :=
  mkWorld ∅ (<["p1" := alice]> (<["p2" := bob]> ∅)) [].
Definition world1 : World :=
  mkWorld (<["t1" := task1]> ∅) (<["p1" := alice]> (<["p2" := bob]> ∅)) [].

Definition body_milk : gmap string value :=
  <["title" := VStr "  Buy milk  "]> ∅.
Definition body_blank_title : gmap string value :=
  <["title" := VStr "   "]> ∅.
Definition body_not_completed : gmap string value :=
  <["completed" := VBool false]> ∅.
Definition body_completed_text : gmap string value :=
  <["completed" := VStr "no"]> ∅.
Definition body_first_name : gmap string value :=
  <["first_name" := VStr " Alicia "]> ∅.
Definition body_empty_first_name : gmap string value :=
  <["first_name" := VStr EmptyString]> ∅.
Definition body_empty_title : gmap string value :=
  <["title" := VStr EmptyString]> ∅.

Definition task3 : Task := mkTask "t3" true 5 "p1" "Walk the dog" false.
Definition task4 : Task := mkTask "t4" true 7 "p2" "Read" false.
Definition world2 : World :=
  mkWorld (<["t1" := task1]> (<["t3" := task3]> (<["t4" := task4]> ∅)))
    (<["p1" := alice]> (<["p2" := bob]> ∅)) [].
Definition carol : Person := mkPerson "p3" true 3 (Some "Carol") None.
Definition body_retitle : gmap string value :=
  <["title" := VStr " Buy oat milk "]> ∅.
Definition body_number_title : gmap string value :=
  <["title" := VInt 5]> ∅.
Definition body_zero_title : gmap string value :=
  <["title" := VInt 0]> (<["completed" := VBool true]> ∅).
Definition body_blank_names : gmap string value :=
  <["first_name" := VStr "  "]> (<["last_name" := VStr " "]> ∅).
Definition body_blank_last_name : gmap string value :=
  <["first_name" := VStr "Al"]> (<["last_name" := VStr " "]> ∅).
Definition body_number_name : gmap string value :=
  <["first_name" := VInt 7]> ∅.
Definition body_number_last_name : gmap string value :=
  <["first_name" := VStr "Al"]> (<["last_name" := VInt 7]> ∅).
Definition sample_requests : list request :=
  [PutTask env2 "t1" alice body_retitle;
   PutTask env2 "t1" bob body_retitle;
   DeleteTask env2 "t1" alice;
   PostTasks env2 bob body_milk;
   PutMe env2 alice body_first_name].

(** * Properties *)

(** ** Strings and values *)

Lemma eqb_empty (s : string) : String.eqb s EmptyString = true ↔ s = EmptyString.
Proof. apply String.eqb_eq. Qed.

Lemma eqb_empty_false (s : string) :
  String.eqb s EmptyString = false ↔ s ≠ EmptyString.
Proof. apply String.eqb_neq. Qed.

Lemma strip_empty : strip EmptyString = EmptyString.
Proof. reflexivity. Qed.

Lemma strip_nonempty_truthy (s : string) :
  strip s ≠ EmptyString → py_bool (VStr s) = true.
Proof.
  intros H. destruct s as [|c s]; [by destruct H|]. reflexivity.
Qed.

Example strip_buy_milk : strip "  Buy milk  " = "Buy milk".
Proof. reflexivity. Qed.

Example strip_inner_space_kept : strip " a  b " = "a  b".
Proof. reflexivity. Qed.

Example strip_blank : strip "   " = EmptyString.
Proof. reflexivity. Qed.

Lemma lstrip_head (s : string) c s' :
  lstrip s = String c s' → py_isspace c = false.
Proof.
  induction s as [|a s IH]; cbn [lstrip]; [done|].
  destruct (py_isspace a) eqn:Ha; [done|]. by intros [= <- <-].
Qed.

Lemma rstrip_head c s c' s' :
  rstrip (String c s) = String c' s' → c' = c.
Proof.
  cbn [rstrip]. destruct (rstrip s); [|by intros [= <- <-]].
  destruct (py_isspace c); [done|]. by intros [= <- <-].
Qed.

(** A trimmed string does not start with a space. *)
Lemma strip_head (s : string) c s' :
  strip s = String c s' → py_isspace c = false.
Proof.
  unfold strip. destruct (lstrip s) as [|a r] eqn:Hl; [done|].
  intros ->%rstrip_head. by apply (lstrip_head s a r).
Qed.

(** ** The monad *)

Lemma bind_Return {A B} (m : M A) (f : A → M B) w a w' :
  m w = (Return a, w') → (m ≫= f) w = f a w'.
Proof. intros H. unfold mbind, M_bind. by rewrite H. Qed.

Lemma bind_Raise {A B} (m : M A) (f : A → M B) w e w' :
  m w = (Raise e, w') → (m ≫= f) w = (Raise e, w').
Proof. intros H. unfold mbind, M_bind. by rewrite H. Qed.

Lemma raise_if_true e w : raise_if true e w = (Raise e, w).
Proof. reflexivity. Qed.

Lemma raise_if_false e w : raise_if false e w = (Return tt, w).
Proof. reflexivity. Qed.

(** ** Parsed bodies *)

Lemma parse_request_body_get body keys dv k :
  k ∈ keys →
  parse_request_body body keys dv !! k = Some (default dv (body !! k)).
Proof.
  unfold parse_request_body. induction keys as [|k' keys IH]; intros Hin.
  - by apply elem_of_nil in Hin.
  - rewrite fmap_cons. cbn [list_to_map foldr uncurry]. simpl.
    destruct (decide (k' = k)) as [->|Hne].
    + apply lookup_insert_eq.
    + rewrite lookup_insert_ne by done. apply IH.
      apply elem_of_cons in Hin as [?|?]; [congruence|done].
Qed.

Lemma dict_get_parsed body keys k :
  k ∈ keys → dict_get (parse_request_body body keys VNone) k = field body k.
Proof.
  intros Hin. unfold dict_get, field.
  by rewrite parse_request_body_get.
Qed.

Ltac unfold_handlers :=
  unfold handle, Tasks_get, Tasks_post, TaskById_put, TaskById_delete,
    Me_get, Me_put,
    TaskService.save_task, TaskService.get_task_by_id,
    TaskService.get_tasks_by_person_id, TaskService.delete_task,
    PersonService.get_person_by_id, PersonService.save_person;
  rewrite ?dict_get_parsed by (repeat constructor).

Ltac unfold_M :=
  unfold raise_if, strip_method,
    task_repo_get_one, task_repo_save, person_repo_get_one, person_repo_save,
    get_tasks_by_person_id_ordered, as_dict;
  unfold mbind, M_bind, mret, M_ret, mthrow, M_throw;
  cbn beta iota zeta.

(** ** Listing by owner *)

#[export] Instance newer_first_total : Total newer_first.
Proof. intros a b. unfold newer_first. lia. Qed.

#[export] Instance newer_first_trans : Transitive newer_first.
Proof. intros a b c. unfold newer_first. lia. Qed.

Lemma task_of_row_id row : task_of_row row = row.
Proof. by destruct row. Qed.

Lemma collect_rows (acc results : list Task) :
  foldl (λ tasks row, (tasks ++ [task_of_row row])%list) acc results
  = (acc ++ results)%list.
Proof.
  revert acc. induction results as [|row results IH]; intros acc; simpl.
  - by rewrite app_nil_r.
  - rewrite IH, task_of_row_id. by rewrite <- app_assoc.
Qed.

Lemma elem_of_task_rows tbl t :
  t ∈ task_rows tbl ↔ ∃ k, tbl !! k = Some t.
Proof.
  unfold task_rows. rewrite list_elem_of_fmap. split.
  - intros [[k u] [-> Hin]]. exists k. by apply elem_of_map_to_list.
  - intros [k Hk]. exists (k, t). split; [done|].
    by apply elem_of_map_to_list.
Qed.

Lemma get_tasks_by_person_id_ordered_eq pid w :
  get_tasks_by_person_id_ordered pid w
  = (Return (execute_query pid (task_table w)), logged (CallTasksByPerson pid) w).
Proof.
  unfold get_tasks_by_person_id_ordered. by rewrite collect_rows.
Qed.

Lemma get_tasks_by_person_id_eq pid w :
  TaskService.get_tasks_by_person_id pid w
  = (Return (execute_query pid (task_table w)), logged (CallTasksByPerson pid) w).
Proof.
  unfold TaskService.get_tasks_by_person_id.
  by rewrite (bind_Return _ _ _ _ _ (get_tasks_by_person_id_ordered_eq pid w)).
Qed.

Lemma execute_query_Permutation pid tbl :
  execute_query pid tbl ≡ₚ filter (owned_and_active pid) (task_rows tbl).
Proof. apply merge_sort_Permutation. Qed.

Lemma elem_of_execute_query pid tbl t :
  t ∈ execute_query pid tbl
  ↔ (∃ k, tbl !! k = Some t) ∧ person_id t = pid ∧ active t = true.
Proof.
  rewrite (execute_query_Permutation pid tbl), list_elem_of_filter.
  rewrite elem_of_task_rows. unfold owned_and_active. tauto.
Qed.

Lemma Tasks_get_eq person w :
  Tasks_get person w
  = (Return (get_success_response None
               (TasksData (execute_query (p_entity_id person) (task_table w)))),
     logged (CallTasksByPerson (p_entity_id person)) w).
Proof.
  unfold Tasks_get.
  rewrite (bind_Return _ _ _ _ _ (get_tasks_by_person_id_eq _ w)).
  unfold mret, M_ret, as_dict.
  destruct (execute_query _ _); [done|]. by rewrite list_fmap_id.
Qed.

(** C2: [list_by_owner(p)] answers without error, and its answer is the
    tasks of the table whose [person_id] is [p] and whose [active] flag is
    true (a permutation of that selection, so with the same multiplicities),
    ordered by [changed_on] descending; it holds no task of another person,
    and it is the empty list when the table has no such task. The [GET
    /tasks] view returns that list for the acting person. *)
Theorem C2_list_by_owner (pid : string) (w : World) :
  ∃ tasks : list Task,
    TaskService.get_tasks_by_person_id pid w
      = (Return tasks, logged (CallTasksByPerson pid) w)
    ∧ tasks ≡ₚ filter (owned_and_active pid) (task_rows (task_table w))
    ∧ StronglySorted (λ a b, changed_on b ≤ changed_on a) tasks
    ∧ (∀ t, t ∈ tasks ↔
         (∃ k, task_table w !! k = Some t) ∧ person_id t = pid ∧ active t = true)
    ∧ (∀ t, person_id t ≠ pid → t ∉ tasks)
    ∧ ((∀ k t, task_table w !! k = Some t → ¬ owned_and_active pid t) →
       tasks = [])
    ∧ (∀ person, p_entity_id person = pid →
         (Tasks_get person w).1
           = Return (get_success_response None (TasksData tasks))).
Proof.
  exists (execute_query pid (task_table w)).
  split; [apply get_tasks_by_person_id_eq|].
  split; [apply execute_query_Permutation|].
  split; [apply (StronglySorted_merge_sort newer_first)|].
  split; [apply elem_of_execute_query|].
  split.
  - intros t Hne Hin. apply elem_of_execute_query in Hin. tauto.
  - split.
    + intros Hnone. apply elem_of_nil_inv. intros t Hin.
      apply elem_of_execute_query in Hin as [[k Hk] [Hp Ha]].
      by apply (Hnone k t Hk).
    + intros person <-. by rewrite Tasks_get_eq.
Qed.

(** ** Creating a task *)


Lemma Tasks_post_created vrf env person body w s :
  field body "title" = VStr s →
  strip s ≠ EmptyString →
  vrf (parse_request_body body ["title"] VNone) = None →
  let t := mkTask (new_entity_id env) true (now env) (p_entity_id person)
             (strip s) false in
  Tasks_post vrf env person body w
  = (Return (get_success_response (Some "Task created successfully.")
               (TaskData t)),
     mkWorld (<[new_entity_id env := t]> (task_table w)) (person_table w)
       (calls w ++ [CallSaveTask (new_entity_id env)])).
Proof.
  intros Ht Hs Hv t. unfold_handlers. unfold_M. rewrite Hv, Ht.
  rewrite (strip_nonempty_truthy s Hs). simpl.
  apply eqb_empty_false in Hs. by rewrite Hs.
Qed.

(** A title that is truthy but not a string passes both checks and then has
    no [strip]: the request ends in an [AttributeError], nothing stored. *)
Lemma Tasks_post_not_a_string vrf env person body w :
  py_bool (field body "title") = true →
  (∀ s, field body "title" ≠ VStr s) →
  vrf (parse_request_body body ["title"] VNone) = None →
  Tasks_post vrf env person body w = (Raise AttributeError, w).
Proof.
  intros Ht Hs Hv. unfold_handlers. unfold_M. rewrite Hv, Ht.
  destruct (field body "title"); try done. by destruct (Hs s).
Qed.

(** ** Updating a task *)

Lemma TaskById_put_no_fields env id person body w :
  field body "title" = VNone → field body "completed" = VNone →
  TaskById_put env id person body w
  = (Raise (InputValidationError msg_task_fields), w).
Proof. intros Ht Hc. unfold_handlers. unfold_M. by rewrite Ht, Hc. Qed.

Lemma TaskById_put_blank_title env id person body w s :
  field body "title" = VStr s → strip s = EmptyString →
  TaskById_put env id person body w
  = (Raise (InputValidationError msg_title_empty_if_provided), w).
Proof.
  intros Ht Hs. unfold_handlers. unfold_M. rewrite Ht. simpl.
  apply eqb_empty in Hs. rewrite Hs. by rewrite orb_true_r.
Qed.

Lemma put_body_ok_checks body :
  put_body_ok body = true →
  is_None (field body "title") && is_None (field body "completed") = false
  ∧ negb (is_None (field body "title"))
    && (negb (py_bool (field body "title"))
        || str_strip_empty (field body "title")) = false.
Proof.
  unfold put_body_ok. intros [H1 H2]%andb_prop.
  by apply negb_true_iff in H1, H2.
Qed.

Lemma TaskById_put_not_found env id person body w :
  put_body_ok body = true →
  (∀ t, task_table w !! id = Some t → active t = false) →
  TaskById_put env id person body w
  = (Raise (InputValidationError msg_task_not_found),
     logged (CallGetOneTask id) w).
Proof.
  intros [H1 H2]%put_body_ok_checks Hnone.
  unfold_handlers. unfold_M. rewrite H1, H2.
  destruct (task_table w !! id) as [t|] eqn:Ht; [|done].
  by rewrite (Hnone t eq_refl).
Qed.

Lemma TaskById_put_not_owner env id person body w t :
  put_body_ok body = true →
  task_table w !! id = Some t → active t = true →
  person_id t ≠ p_entity_id person →
  TaskById_put env id person body w
  = (Raise (InputValidationError msg_update_permission),
     logged (CallGetOneTask id) w).
Proof.
  intros [H1 H2]%put_body_ok_checks Ht Ha Hne.
  unfold_handlers. unfold_M. rewrite H1, H2, Ht, Ha.
  apply String.eqb_neq in Hne. by rewrite Hne.
Qed.

Lemma opt_value_checks ot c :
  (∀ s, ot = Some s → strip s ≠ EmptyString) →
  (ot = None → c ≠ VNone) →
  is_None (opt_value ot) && is_None c = false
  ∧ negb (is_None (opt_value ot))
    && (negb (py_bool (opt_value ot)) || str_strip_empty (opt_value ot))
    = false.
Proof.
  intros Hs Hc. destruct ot as [s|]; cbn [opt_value is_None negb andb].
  - split; [done|]. specialize (Hs s eq_refl).
    rewrite (strip_nonempty_truthy s Hs). cbn [negb orb str_strip_empty].
    by apply eqb_empty_false.
  - split; [|done]. destruct c; try done. by destruct Hc.
Qed.

Lemma TaskById_put_updated env id person body w t ot :
  field body "title" = opt_value ot →
  (∀ s, ot = Some s → strip s ≠ EmptyString) →
  (ot = None → field body "completed" ≠ VNone) →
  task_table w !! id = Some t → active t = true → entity_id t = id →
  person_id t = p_entity_id person →
  let u := updated_task env ot (field body "completed") t in
  TaskById_put env id person body w
  = (Return (get_success_response (Some "Task updated successfully.")
               (TaskData u)),
     mkWorld (<[id := u]> (task_table w)) (person_table w)
       (calls w ++ [CallGetOneTask id; CallSaveTask id; CallGetOneTask id])).
Proof.
  intros Ht Hs Hc Hl Ha Hid Hp u.
  destruct (opt_value_checks ot _ Hs Hc) as [H1 H2].
  unfold_handlers. unfold_M. rewrite Ht, H1, H2, Hl, Ha.
  rewrite Hp, String.eqb_refl. subst u. unfold updated_task.
  destruct t as [tid ta tc tp tt tk]; cbn in Ha, Hid, Hp; subst.
  destruct ot as [s|]; destruct (is_None (field body "completed"));
    cbn -[lookup insert]; rewrite lookup_insert_eq; cbn -[lookup insert];
    unfold logged; cbn -[lookup insert]; by rewrite <- !app_assoc.
Qed.

(** ** Deleting a task *)

Lemma delete_task_eq env t w :
  TaskService.delete_task env t w
  = (Return (deleted_task env t),
     mkWorld (<[entity_id t := deleted_task env t]> (task_table w))
       (person_table w) (calls w ++ [CallSaveTask (entity_id t)])).
Proof. by destruct t. Qed.

Lemma TaskById_delete_not_found env id person w :
  (∀ t, task_table w !! id = Some t → active t = false) →
  TaskById_delete env id person w
  = (Raise (InputValidationError msg_task_not_found),
     logged (CallGetOneTask id) w).
Proof.
  intros Hnone. unfold_handlers. unfold_M.
  destruct (task_table w !! id) as [t|] eqn:Ht; [|done].
  by rewrite (Hnone t eq_refl).
Qed.

Lemma TaskById_delete_not_owner env id person w t :
  task_table w !! id = Some t → active t = true →
  person_id t ≠ p_entity_id person →
  TaskById_delete env id person w
  = (Raise (InputValidationError msg_delete_permission),
     logged (CallGetOneTask id) w).
Proof.
  intros Ht Ha Hne. unfold_handlers. unfold_M. rewrite Ht, Ha.
  apply String.eqb_neq in Hne. by rewrite Hne.
Qed.

Lemma TaskById_delete_deleted env id person w t :
  task_table w !! id = Some t → active t = true →
  person_id t = p_entity_id person →
  TaskById_delete env id person w
  = (Return (get_success_response (Some "Task deleted successfully.") NoData),
     mkWorld (<[entity_id t := deleted_task env t]> (task_table w))
       (person_table w)
       (calls w ++ [CallGetOneTask id; CallSaveTask (entity_id t)])).
Proof.
  intros Ht Ha Hp. unfold_handlers. unfold_M. rewrite Ht, Ha.
  rewrite Hp, String.eqb_refl. destruct t. cbn -[lookup insert].
  unfold logged. cbn -[lookup insert]. by rewrite <- !app_assoc.
Qed.

(** ** Updating the profile *)

Lemma Me_put_no_fields env person body w :
  py_bool (field body "first_name") = false →
  py_bool (field body "last_name") = false →
  Me_put env person body w
  = (Raise (InputValidationError msg_person_fields), w).
Proof. intros Hf Hl. unfold_handlers. unfold_M. by rewrite Hf, Hl. Qed.

Lemma Me_put_rejected env person body w :
  (is_None (field body "first_name") && is_None (field body "last_name")
   || empty_if_provided (field body "first_name")
   || empty_if_provided (field body "last_name")) = true →
  ∃ msg, Me_put env person body w = (Raise (InputValidationError msg), w).
Proof.
  unfold empty_if_provided. intros Hbad. unfold_handlers. unfold_M.
  destruct (negb (py_bool (field body "first_name"))
            && negb (py_bool (field body "last_name"))) eqn:H0;
    [by eexists|].
  destruct (negb (is_None (field body "first_name"))
            && (negb (py_bool (field body "first_name"))
                || str_strip_empty (field body "first_name"))) eqn:H1;
    [by eexists|].
  destruct (negb (is_None (field body "last_name"))
            && (negb (py_bool (field body "last_name"))
                || str_strip_empty (field body "last_name"))) eqn:H2;
    [by eexists|].
  exfalso. rewrite orb_false_r, orb_false_r in Hbad.
  apply andb_prop in Hbad as [Hf Hl].
  destruct (field body "first_name"); try done.
  by destruct (field body "last_name").
Qed.

Lemma opt_value_provided o :
  (∀ s, o = Some s → strip s ≠ EmptyString) →
  empty_if_provided (opt_value o) = false
  ∧ py_bool (opt_value o) = bool_decide (is_Some o).
Proof.
  intros Hs. unfold empty_if_provided. destruct o as [s|]; [|done].
  specialize (Hs s eq_refl). cbn [opt_value is_None negb andb].
  rewrite (strip_nonempty_truthy s Hs). cbn [negb orb str_strip_empty].
  split; [by apply eqb_empty_false|done].
Qed.

Lemma Me_put_updated env person body w p ofn oln :
  field body "first_name" = opt_value ofn →
  field body "last_name" = opt_value oln →
  (∀ s, ofn = Some s → strip s ≠ EmptyString) →
  (∀ s, oln = Some s → strip s ≠ EmptyString) →
  is_Some ofn ∨ is_Some oln →
  person_table w !! p_entity_id person = Some p → p_active p = true →
  p_entity_id p = p_entity_id person →
  let q := updated_person env ofn oln p in
  Me_put env person body w
  = (Return (get_success_response (Some "Name updated successfully.")
               (PersonData (Some q))),
     mkWorld (task_table w) (<[p_entity_id person := q]> (person_table w))
       (calls w ++ [CallGetOnePerson (p_entity_id person);
                    CallSavePerson (p_entity_id person);
                    CallGetOnePerson (p_entity_id person)])).
Proof.
  intros Hf Hl Hsf Hsl Hsome Hp Ha Hid q.
  destruct (opt_value_provided ofn Hsf) as [Hf1 Hf2].
  destruct (opt_value_provided oln Hsl) as [Hl1 Hl2].
  unfold empty_if_provided in Hf1, Hl1.
  unfold_handlers. unfold_M. rewrite Hf, Hl, Hf1, Hl1, Hf2, Hl2.
  assert (negb (bool_decide (is_Some ofn)) && negb (bool_decide (is_Some oln))
          = false) as ->.
  { destruct Hsome as [H|H]; rewrite (bool_decide_eq_true_2 _ H);
      [done|by rewrite andb_false_r]. }
  rewrite Hp, Ha. subst q. unfold updated_person.
  destruct p as [pid pa pc pf pl]; cbn in Ha, Hid; subst.
  destruct ofn as [s1|]; destruct oln as [s2|];
    cbn -[lookup insert]; rewrite lookup_insert_eq; cbn -[lookup insert];
    unfold logged; cbn -[lookup insert]; by rewrite <- !app_assoc.
Qed.

(** ** Failed requests *)

Ltac split_cases :=
  repeat (cbn beta iota zeta;
    match goal with
    | |- context [match ?v with VStr _ => _ | _ => _ end] =>
        is_var v; destruct v
    | |- context [match ?v with VStr _ => _ | _ => _ end] => destruct v eqn:?
    | |- context [match ?m !! ?k with Some _ => _ | None => _ end] =>
        destruct (m !! k) eqn:?
    | |- context [if ?b then _ else _] => destruct b eqn:?
    | |- context [match ?o with Some _ => _ | None => _ end] =>
        destruct o eqn:?
    end).

Lemma handle_validation_error vrf req w msg w' :
  handle vrf req w = (Raise (InputValidationError msg), w') →
  task_table w' = task_table w ∧ person_table w' = person_table w.
Proof.
  destruct req; unfold_handlers; unfold_M; split_cases;
    cbn beta iota zeta; intros [= <- <-] || intros [= <-] || intros [=];
    done.
Qed.

(** ** What a request writes *)

Lemma well_keyed_insert tbl t :
  well_keyed tbl → well_keyed (<[entity_id t := t]> tbl).
Proof.
  intros Hwk k u. rewrite lookup_insert. case_decide; [|apply Hwk].
  by intros [= <-].
Qed.

(** A request leaves the task table as it is or writes one row, under that
    row's own identifier: a row it had fetched as active, or a new one. *)
Lemma handle_task_table vrf req w :
  task_table (handle vrf req w).2 = task_table w
  ∨ ∃ t, task_table (handle vrf req w).2 = <[entity_id t := t]> (task_table w)
       ∧ ((∃ k t0, task_table w !! k = Some t0 ∧ active t0 = true
                   ∧ entity_id t = entity_id t0)
          ∨ creates (entity_id t) req).
Proof.
  destruct req; unfold_handlers; unfold_M; split_cases;
    cbn -[lookup insert]; try by left.
  all: right;
    match goal with |- ∃ _, <[_:=?x]> _ = _ ∧ _ => exists x end;
    split; [reflexivity|].
  all: first [ by right
             | left; do 2 eexists;
               split; [eassumption|split; [eassumption|reflexivity]]
             ].
Qed.

Lemma handle_well_keyed vrf req w :
  well_keyed (task_table w) → well_keyed (task_table (handle vrf req w).2).
Proof.
  intros Hwk.
  destruct (handle_task_table vrf req w) as [->|[t [-> _]]]; [done|].
  by apply well_keyed_insert.
Qed.

Lemma run_requests_snoc vrf reqs req w :
  run_requests vrf (reqs ++ [req]) w
  = (handle vrf req (run_requests vrf reqs w)).2.
Proof. unfold run_requests. by rewrite foldl_app. Qed.

Lemma run_requests_well_keyed vrf reqs w :
  well_keyed (task_table w) →
  well_keyed (task_table (run_requests vrf reqs w)).
Proof.
  intros Hwk. induction reqs as [|req reqs IH] using rev_ind; [done|].
  rewrite run_requests_snoc. by apply handle_well_keyed.
Qed.

(** A soft-deleted task stays soft-deleted through any request that does
    not construct a new task under its identifier. *)
Lemma handle_soft_deleted vrf req id w :
  well_keyed (task_table w) → soft_deleted id w → ¬ creates id req →
  soft_deleted id (handle vrf req w).2.
Proof.
  intros Hwk (t & Ht & Ha) Hnew. unfold soft_deleted.
  destruct (handle_task_table vrf req w)
    as [->|[u [-> [(k & t0 & Hk & Ha0 & Hid)|Hc]]]]; [by exists t|..].
  - exists t. split; [|done]. rewrite lookup_insert_ne; [done|].
    rewrite Hid, (Hwk k t0 Hk). intros ->. congruence.
  - exists t. split; [|done]. rewrite lookup_insert_ne; [done|].
    intros Heq. apply Hnew. by rewrite <- Heq.
Qed.

Lemma run_requests_soft_deleted vrf reqs id w :
  well_keyed (task_table w) → soft_deleted id w →
  Forall (λ req, ¬ creates id req) reqs →
  soft_deleted id (run_requests vrf reqs w).
Proof.
  intros Hwk Hdel. induction reqs as [|req reqs IH] using rev_ind; [done|].
  intros [Hreqs Hreq]%Forall_app. apply Forall_cons_1 in Hreq as [Hreq _].
  rewrite run_requests_snoc.
  apply handle_soft_deleted; [|by apply IH|exact Hreq].
  by apply run_requests_well_keyed.
Qed.

Lemma soft_deleted_not_listed id pid w :
  well_keyed (task_table w) → soft_deleted id w → ¬ listed id pid w.
Proof.
  intros Hwk (t & Ht & Ha) (tasks & u & Hr & Hin & Hid).
  rewrite get_tasks_by_person_id_eq in Hr. injection Hr as <-.
  apply elem_of_execute_query in Hin as [[k Hk] [_ Hau]].
  rewrite <- (Hwk k u Hk), Hid in Hk. congruence.
Qed.

Lemma soft_deleted_listing id pid w :
  well_keyed (task_table w) → soft_deleted id w →
  ∃ tasks,
    (TaskService.get_tasks_by_person_id pid w).1 = Return tasks
    ∧ ∀ u, u ∈ tasks → entity_id u ≠ id.
Proof.
  intros Hwk Hdel. exists (execute_query pid (task_table w)).
  split; [by rewrite get_tasks_by_person_id_eq|].
  intros u Hin Hid. apply (soft_deleted_not_listed id pid w Hwk Hdel).
  exists (execute_query pid (task_table w)), u.
  by rewrite get_tasks_by_person_id_eq.
Qed.

Lemma soft_deleted_Tasks_get id person w :
  well_keyed (task_table w) → soft_deleted id w →
  ∃ tasks,
    (Tasks_get person w).1
      = Return (get_success_response None (TasksData tasks))
    ∧ ∀ u, u ∈ tasks → entity_id u ≠ id.
Proof.
  intros Hwk Hdel.
  destruct (soft_deleted_listing id (p_entity_id person) w Hwk Hdel)
    as (tasks & Hr & Hout).
  rewrite get_tasks_by_person_id_eq in Hr. injection Hr as <-.
  exists (execute_query (p_entity_id person) (task_table w)).
  by rewrite Tasks_get_eq.
Qed.


(** ** Ownership *)

Lemma TaskById_put_body_refused env id person body w :
  put_body_ok body = false →
  ∃ msg, TaskById_put env id person body w
         = (Raise (InputValidationError msg), w).
Proof.
  unfold put_body_ok. intros Hbad. unfold_handlers. unfold_M.
  destruct (is_None (field body "title") && is_None (field body "completed"));
    [by eexists|].
  cbn [negb andb] in Hbad. apply negb_false_iff in Hbad. rewrite Hbad.
  by eexists.
Qed.

Lemma well_keyed_world1 : well_keyed (task_table world1).
Proof. apply (well_keyed_insert ∅ task1). intros k t. by rewrite lookup_empty. Qed.

(** C1, as stated, fails: the task "t1" is stored, active and owned by
    "p1"; "p2" asks to update it with a body that supplies no field; the
    answer is the no-fields validation error, not the permission error. *)
Lemma C1_update_without_fields_is_not_permission_error :
  (TaskService.get_task_by_id "t1" world1).1 = Return (Some task1)
  ∧ person_id task1 ≠ p_entity_id bob
  ∧ (TaskById_put env2 "t1" bob ∅ world1).1
    = Raise (InputValidationError msg_task_fields)
  ∧ msg_task_fields ≠ msg_update_permission.
Proof. by repeat split. Qed.

(** C1, amended: when the task that [get_task_by_id] returns belongs to
    another person, a delete request, and an update request whose body
    passes the two body checks, fail with the permission message, which
    differs from the not-found message; after the delete request and after
    any update request - also one whose body is refused - both tables are
    what they were. *)
Theorem C1_ownership_mismatch_rejected env id person body w t :
  task_table w !! id = Some t → active t = true →
  person_id t ≠ p_entity_id person →
  (TaskById_delete env id person w).1
    = Raise (InputValidationError msg_delete_permission)
  ∧ (put_body_ok body = true →
     (TaskById_put env id person body w).1
       = Raise (InputValidationError msg_update_permission))
  ∧ msg_delete_permission ≠ msg_task_not_found
  ∧ msg_update_permission ≠ msg_task_not_found
  ∧ task_table (TaskById_delete env id person w).2 = task_table w
  ∧ person_table (TaskById_delete env id person w).2 = person_table w
  ∧ task_table (TaskById_put env id person body w).2 = task_table w
  ∧ person_table (TaskById_put env id person body w).2 = person_table w
  ∧ task_table (TaskById_delete env id person w).2 !! id = Some t
  ∧ task_table (TaskById_put env id person body w).2 !! id = Some t.
Proof.
  intros Ht Ha Hne.
  rewrite (TaskById_delete_not_owner env id person w t Ht Ha Hne).
  split; [done|]. split.
  { intros Hok. by rewrite (TaskById_put_not_owner _ _ _ _ _ _ Hok Ht Ha Hne). }
  do 4 (split; [done|]).
  destruct (put_body_ok body) eqn:Hok.
  - by rewrite (TaskById_put_not_owner _ _ _ _ _ _ Hok Ht Ha Hne).
  - destruct (TaskById_put_body_refused env id person body w Hok) as [msg ->].
    done.
Qed.

Lemma C1_ownership_mismatch_rejected_witness :
  (TaskById_delete env2 "t1" bob world1).1
    = Raise (InputValidationError msg_delete_permission)
  ∧ (TaskById_put env2 "t1" bob body_milk world1).1
    = Raise (InputValidationError msg_update_permission)
  ∧ task_table (TaskById_put env2 "t1" bob body_milk world1).2 !! "t1"
    = Some task1.
Proof.
  destruct (C1_ownership_mismatch_rejected env2 "t1" bob body_milk world1 task1)
    as (Hd & Hp & _ & _ & _ & _ & _ & _ & _ & Hl);
    [reflexivity|reflexivity|discriminate|].
  split; [exact Hd|]. split; [apply Hp; reflexivity|exact Hl].
Defined.

(** ** Claims on creating, deleting and updating *)




(** C4: [delete_task] keeps the record in the table, with [active] false and
    its other fields as they were, and touches no other record; after it,
    [get_tasks_by_person_id] returns, for every person, a list without the
    task, and so does the [GET /tasks] view; this remains so through any
    later requests, as long as none constructs a new task under the same
    identifier. *)
Theorem C4_soft_delete vrf env t w :
  well_keyed (task_table w) →
  let w' := (TaskService.delete_task env t w).2 in
  (∃ u, task_table w' !! entity_id t = Some u
        ∧ active u = false ∧ entity_id u = entity_id t
        ∧ person_id u = person_id t ∧ title u = title t
        ∧ completed u = completed t)
  ∧ (∀ k, k ≠ entity_id t → task_table w' !! k = task_table w !! k)
  ∧ (∀ k, is_Some (task_table w !! k) → is_Some (task_table w' !! k))
  ∧ (∀ pid, ∃ tasks,
       (TaskService.get_tasks_by_person_id pid w').1 = Return tasks
       ∧ ∀ u, u ∈ tasks → entity_id u ≠ entity_id t)
  ∧ (∀ person, ∃ tasks,
       (Tasks_get person w').1
         = Return (get_success_response None (TasksData tasks))
       ∧ ∀ u, u ∈ tasks → entity_id u ≠ entity_id t)
  ∧ (∀ reqs pid,
       Forall (λ req, ¬ creates (entity_id t) req) reqs →
       ∃ tasks,
         (TaskService.get_tasks_by_person_id pid
            (run_requests vrf reqs w')).1 = Return tasks
         ∧ ∀ u, u ∈ tasks → entity_id u ≠ entity_id t)
  ∧ (∀ reqs person,
       Forall (λ req, ¬ creates (entity_id t) req) reqs →
       ∃ tasks,
         (Tasks_get person (run_requests vrf reqs w')).1
           = Return (get_success_response None (TasksData tasks))
         ∧ ∀ u, u ∈ tasks → entity_id u ≠ entity_id t).
Proof.
  intros Hwk w'. subst w'. rewrite delete_task_eq. cbn [snd task_table].
  assert (Hwk' : well_keyed (<[entity_id t := deleted_task env t]> (task_table w)))
    by apply (well_keyed_insert _ (deleted_task env t) Hwk).
  assert (Hdel : ∀ cs, soft_deleted (entity_id t)
            (mkWorld (<[entity_id t := deleted_task env t]> (task_table w))
               (person_table w) cs)).
  { intros cs. exists (deleted_task env t). split; [|done].
    apply lookup_insert_eq. }
  split.
  { exists (deleted_task env t). split; [apply lookup_insert_eq|done]. }
  split.
  { intros k Hk. by rewrite lookup_insert_ne. }
  split.
  { intros k Hk. rewrite lookup_insert. by case_decide. }
  split; [intros pid; by apply soft_deleted_listing|].
  split; [intros person; by apply soft_deleted_Tasks_get|].
  split.
  - intros reqs pid Hreqs. apply soft_deleted_listing.
    + by apply run_requests_well_keyed.
    + by apply run_requests_soft_deleted.
  - intros reqs person Hreqs. apply soft_deleted_Tasks_get.
    + by apply run_requests_well_keyed.
    + by apply run_requests_soft_deleted.
Qed.

Lemma C4_soft_delete_witness :
  well_keyed (task_table world1)
  ∧ (∃ u, task_table (TaskService.delete_task env2 task1 world1).2 !! "t1"
          = Some u ∧ active u = false)
  ∧ (∃ tasks,
       (TaskService.get_tasks_by_person_id "p1"
          (TaskService.delete_task env2 task1 world1).2).1 = Return tasks
       ∧ ∀ u, u ∈ tasks → entity_id u ≠ "t1")
  ∧ (∃ tasks,
       (Tasks_get alice
          (run_requests refuse_falsy_fields
             [GetTasks alice; PutTask env2 "t1" alice body_not_completed]
             (TaskService.delete_task env2 task1 world1).2)).1
         = Return (get_success_response None (TasksData tasks))
       ∧ ∀ u, u ∈ tasks → entity_id u ≠ "t1").
Proof.
  split; [exact well_keyed_world1|].
  destruct (C4_soft_delete refuse_falsy_fields env2 task1 world1
              well_keyed_world1)
    as ((u & Hu & Ha & _) & _ & _ & Hl & _ & _ & Hr).
  split; [by exists u|]. split; [exact (Hl "p1")|].
  apply Hr. repeat constructor; intros [].
Defined.

(** C5: an update whose title is the empty string or only whitespace fails
    with the empty-title message; an update supplying neither [title] nor
    [completed] fails with the no-fields message; an update supplying only
    [completed = false], on a task of the acting person, succeeds, and the
    stored task then has [completed] false and its title as before. *)
Theorem C5_update_validation env id person body w :
  (∀ s, field body "title" = VStr s → strip s = EmptyString →
     TaskById_put env id person body w
     = (Raise (InputValidationError msg_title_empty_if_provided), w))
  ∧ (field body "title" = VNone → field body "completed" = VNone →
     TaskById_put env id person body w
     = (Raise (InputValidationError msg_task_fields), w))
  ∧ msg_title_empty_if_provided ≠ msg_task_fields
  ∧ (∀ t, field body "title" = VNone →
       field body "completed" = VBool false →
       task_table w !! id = Some t → active t = true → entity_id t = id →
       person_id t = p_entity_id person →
       ∃ u w',
         TaskById_put env id person body w
           = (Return (get_success_response (Some "Task updated successfully.")
                        (TaskData u)), w')
         ∧ task_table w' !! id = Some u
         ∧ completed u = false ∧ title u = title t
         ∧ person_id u = person_id t ∧ active u = true).
Proof.
  split; [intros s; apply TaskById_put_blank_title|].
  split; [apply TaskById_put_no_fields|].
  split; [done|].
  intros t Ht Hc Hl Ha Hid Hp. do 2 eexists.
  split.
  { apply (TaskById_put_updated env id person body w t None); try done.
    intros _. by rewrite Hc. }
  cbn [task_table]. rewrite lookup_insert_eq, Hc.
  by repeat split.
Qed.

Lemma C5_update_validation_witness :
  TaskById_put env2 "t1" alice body_empty_title world1
    = (Raise (InputValidationError msg_title_empty_if_provided), world1)
  ∧ TaskById_put env2 "t1" alice body_blank_title world1
    = (Raise (InputValidationError msg_title_empty_if_provided), world1)
  ∧ TaskById_put env2 "t1" alice ∅ world1
    = (Raise (InputValidationError msg_task_fields), world1)
  ∧ ∃ u w',
      TaskById_put env2 "t1" alice body_not_completed world1
        = (Return (get_success_response (Some "Task updated successfully.")
                     (TaskData u)), w')
      ∧ completed task1 = true ∧ completed u = false.
Proof.
  split.
  { apply (C5_update_validation env2 "t1" alice body_empty_title world1)
      with (s := EmptyString); reflexivity. }
  split.
  { apply (C5_update_validation env2 "t1" alice body_blank_title world1)
      with (s := "   "); reflexivity. }
  split.
  { apply (C5_update_validation env2 "t1" alice ∅ world1); reflexivity. }
  destruct (C5_update_validation env2 "t1" alice body_not_completed world1)
    as (_ & _ & _ & Hok).
  destruct (Hok task1) as (u & w' & Hr & _ & Hc & _); try reflexivity.
  exists u, w'. by repeat split.
Defined.

(** ** Re-fetching *)

Lemma TaskById_put_returns env id person body w r w' :
  TaskById_put env id person body w = (Return r, w') →
  ∃ k u,
    calls w' = (calls w
                ++ [CallGetOneTask id; CallSaveTask k; CallGetOneTask id])%list
    ∧ (TaskService.get_task_by_id id w').1 = Return (Some u)
    ∧ r = get_success_response (Some "Task updated successfully.")
            (TaskData u).
Proof.
  remember (∃ k u, _) as G eqn:HG.
  unfold_handlers; unfold_M; split_cases; cbn beta iota zeta;
    intros [= <- <-] || intros [=]; subst G.
  all: do 2 eexists;
    (split; [unfold logged; cbn [calls]; by rewrite <- !app_assoc|]);
    (split; [|reflexivity]);
    unfold TaskService.get_task_by_id; unfold_M; cbn -[lookup insert] in *;
    match goal with
    | H : _ !! _ = Some ?u, Ha : active ?u = true |- _ => by rewrite H, Ha
    end.
Qed.

Lemma Me_put_returns env person body w r w' :
  Me_put env person body w = (Return r, w') →
  ∃ k o,
    calls w' = (calls w
                ++ [CallGetOnePerson (p_entity_id person); CallSavePerson k;
                    CallGetOnePerson (p_entity_id person)])%list
    ∧ (PersonService.get_person_by_id (p_entity_id person) w').1 = Return o
    ∧ r = get_success_response (Some "Name updated successfully.")
            (PersonData o).
Proof.
  remember (∃ k o, _) as G eqn:HG.
  unfold_handlers; unfold_M; split_cases; cbn beta iota zeta;
    intros [= <- <-] || intros [=]; subst G.
  all: do 2 eexists;
    (split; [unfold logged; cbn [calls]; by rewrite <- !app_assoc|]);
    (split; [|reflexivity]);
    unfold PersonService.get_person_by_id; unfold_M;
    cbn -[lookup insert] in *;
    match goal with
    | H : _ !! _ = Some ?u, Ha : p_active ?u = _ |- _ => by rewrite H, Ha
    | H : _ !! _ = None |- _ => by rewrite H
    end.
Qed.

Lemma Tasks_post_returns vrf env person body w r w' :
  Tasks_post vrf env person body w = (Return r, w') →
  ∃ t u,
    TaskService.save_task env t w = (Return u, w')
    ∧ calls w' = (calls w ++ [CallSaveTask (new_entity_id env)])%list
    ∧ r = get_success_response (Some "Task created successfully.")
            (TaskData u).
Proof.
  remember (∃ t u, _) as G eqn:HG.
  unfold_handlers; unfold_M; split_cases; cbn beta iota zeta;
    intros [= <- <-] || intros [=]; subst G.
  all: by eexists (Task_new _ _ _ _), _.
Qed.

(** C8, as stated, fails for a create: [POST /tasks] answers with the
    record that [save] returned; its only repository call is that save. *)
Lemma C8_create_answers_without_refetch :
  (Tasks_post refuse_falsy_fields env1 alice body_milk world0).1
    = Return (get_success_response (Some "Task created successfully.")
                (TaskData (mkTask "t1" true 10 "p1" "Buy milk" false)))
  ∧ calls world0 = []
  ∧ calls (Tasks_post refuse_falsy_fields env1 alice body_milk world0).2
    = [CallSaveTask "t1"]
  ∧ ∀ id, CallGetOneTask id
          ∉ calls (Tasks_post refuse_falsy_fields env1 alice body_milk world0).2.
Proof.
  do 3 (split; [reflexivity|]).
  intros id Hin. apply list_elem_of_singleton in Hin. discriminate.
Qed.

(** C8, amended: a successful task update and a successful profile update
    fetch the entity by id, save, and fetch it by id again, and answer with
    the record of that last fetch; a successful create makes one repository
    call, the save, and answers with the record the save returned. *)
Theorem C8_refetch_after_update :
  (∀ env id person body w r w',
     TaskById_put env id person body w = (Return r, w') →
     ∃ k u,
       calls w' = (calls w ++ [CallGetOneTask id; CallSaveTask k;
                               CallGetOneTask id])%list
       ∧ (TaskService.get_task_by_id id w').1 = Return (Some u)
       ∧ r = get_success_response (Some "Task updated successfully.")
               (TaskData u))
  ∧ (∀ env person body w r w',
       Me_put env person body w = (Return r, w') →
       ∃ k o,
         calls w' = (calls w ++ [CallGetOnePerson (p_entity_id person);
                                 CallSavePerson k;
                                 CallGetOnePerson (p_entity_id person)])%list
         ∧ (PersonService.get_person_by_id (p_entity_id person) w').1
           = Return o
         ∧ r = get_success_response (Some "Name updated successfully.")
                 (PersonData o))
  ∧ (∀ vrf env person body w r w',
       Tasks_post vrf env person body w = (Return r, w') →
       ∃ t u,
         TaskService.save_task env t w = (Return u, w')
         ∧ calls w' = (calls w ++ [CallSaveTask (new_entity_id env)])%list
         ∧ r = get_success_response (Some "Task created successfully.")
                 (TaskData u)).
Proof.
  split; [exact TaskById_put_returns|].
  split; [exact Me_put_returns|exact Tasks_post_returns].
Qed.

Lemma C8_refetch_after_update_witness :
  ∃ u, calls (TaskById_put env2 "t1" alice body_not_completed world1).2
       = [CallGetOneTask "t1"; CallSaveTask "t1"; CallGetOneTask "t1"]
     ∧ (TaskService.get_task_by_id "t1"
          (TaskById_put env2 "t1" alice body_not_completed world1).2).1
       = Return (Some u)
     ∧ (TaskById_put env2 "t1" alice body_not_completed world1).1
       = Return (get_success_response (Some "Task updated successfully.")
                   (TaskData u)).
Proof.
  destruct C8_refetch_after_update as [Hput _].
  destruct (Hput env2 "t1" alice body_not_completed world1
              (get_success_response (Some "Task updated successfully.")
                 (TaskData (mkTask "t1" true 20 "p1" "Buy milk" false)))
              (TaskById_put env2 "t1" alice body_not_completed world1).2)
    as (k & u & Hc & Hg & Hr); [reflexivity|].
  exists u. split; [|split; [exact Hg|by rewrite <- Hr]].
  rewrite Hc. cbn [calls world1 app]. repeat f_equal.
  assert (Hk : nth_error (calls (TaskById_put env2 "t1" alice
                                   body_not_completed world1).2) 1
               = Some (CallSaveTask k)) by by rewrite Hc.
  by injection Hk as <-.
Defined.

(** ** The profile *)

Lemma Me_put_empty_name_alone env person body w :
  field body "first_name" = VStr EmptyString →
  py_bool (field body "last_name") = false →
  Me_put env person body w
  = (Raise (InputValidationError msg_person_fields), w).
Proof. intros Hf Hl. apply Me_put_no_fields; [by rewrite Hf|done]. Qed.

(** C6 at the failing request: a profile update that provides only
    [first_name], as the empty string, is answered with the no-fields
    message and not with the empty-field message; the task update with only
    an empty [title] is answered with the empty-field message. *)
Theorem C6_empty_first_name_reported_as_absent env id person w :
  field body_empty_first_name "first_name" = VStr EmptyString
  ∧ body_empty_first_name !! "last_name" = None
  ∧ Me_put env person body_empty_first_name w
    = (Raise (InputValidationError msg_person_fields), w)
  ∧ msg_person_fields ≠ msg_first_name_empty
  ∧ TaskById_put env id person body_empty_title w
    = (Raise (InputValidationError msg_title_empty_if_provided), w).
Proof.
  do 2 (split; [reflexivity|]).
  split; [by apply Me_put_empty_name_alone|].
  split; [discriminate|].
  by apply (TaskById_put_blank_title env id person _ w EmptyString).
Qed.

(** C7: a profile update that supplies neither name, or a name that is empty
    or blank, fails with an [InputValidationError] and changes nothing; when
    at least one name is supplied and each supplied name is a string that is
    not blank, the stored person gets the supplied names trimmed and keeps
    the other name as it was, and the answer carries that stored person. *)
Theorem C7_update_profile env person body w :
  ((field body "first_name" = VNone ∧ field body "last_name" = VNone)
   ∨ (∃ s, field body "first_name" = VStr s ∧ strip s = EmptyString)
   ∨ (∃ s, field body "last_name" = VStr s ∧ strip s = EmptyString) →
   ∃ msg, Me_put env person body w = (Raise (InputValidationError msg), w))
  ∧ (∀ p ofn oln,
       field body "first_name" = opt_value ofn →
       field body "last_name" = opt_value oln →
       (∀ s, ofn = Some s → strip s ≠ EmptyString) →
       (∀ s, oln = Some s → strip s ≠ EmptyString) →
       is_Some ofn ∨ is_Some oln →
       person_table w !! p_entity_id person = Some p → p_active p = true →
       p_entity_id p = p_entity_id person →
       ∃ q w',
         Me_put env person body w
           = (Return (get_success_response (Some "Name updated successfully.")
                        (PersonData (Some q))), w')
         ∧ person_table w' !! p_entity_id person = Some q
         ∧ first_name q = from_option (λ s, Some (strip s)) (first_name p) ofn
         ∧ last_name q = from_option (λ s, Some (strip s)) (last_name p) oln
         ∧ task_table w' = task_table w).
Proof.
  split.
  - intros Hbad. apply Me_put_rejected. unfold empty_if_provided.
    destruct Hbad as [[-> ->]|[(s & -> & Hs)|(s & -> & Hs)]]; [done|..];
      apply eqb_empty in Hs; cbn [is_None str_strip_empty]; rewrite Hs;
      repeat (rewrite ?andb_false_r, ?orb_true_r; cbn [andb orb negb]);
      done.
  - intros p ofn oln Hf Hl Hsf Hsl Hsome Hp Ha Hid. do 2 eexists.
    split; [by apply (Me_put_updated env person body w p ofn oln)|].
    cbn [person_table task_table]. by rewrite lookup_insert_eq.
Qed.

Lemma C7_update_profile_witness :
  (∃ msg, Me_put env2 alice ∅ world1
          = (Raise (InputValidationError msg), world1))
  ∧ ∃ q w',
      Me_put env2 alice body_first_name world1
        = (Return (get_success_response (Some "Name updated successfully.")
                     (PersonData (Some q))), w')
      ∧ first_name q = Some "Alicia" ∧ last_name q = Some "Liddell".
Proof.
  split.
  - apply (C7_update_profile env2 alice ∅ world1). left. by split.
  - destruct (C7_update_profile env2 alice body_first_name world1) as [_ Hok].
    destruct (Hok alice (Some " Alicia ") None)
      as (q & w' & Hr & _ & Hf & Hl & _); try reflexivity.
    + intros s [= <-]. discriminate.
    + discriminate.
    + left. by eexists.
    + exists q, w'. by repeat split.
Defined.

(** ** Validation failures *)

(** C9: whenever a request is answered with an [InputValidationError] - no
    field supplied, an empty or blank field, and also task or person not
    found and task of another person - both tables are exactly what they
    were before the request, and the request made no save call. *)
Theorem C9_failed_validation_writes_nothing vrf req w msg w' :
  handle vrf req w = (Raise (InputValidationError msg), w') →
  task_table w' = task_table w
  ∧ person_table w' = person_table w
  ∧ ∃ cs, calls w' = (calls w ++ cs)%list
          ∧ ∀ c, c ∈ cs → is_save c = false.
Proof.
  intros H. destruct (handle_validation_error vrf req w msg w' H) as [Ht Hp].
  do 2 (split; [done|]).
  revert H. destruct req; unfold_handlers; unfold_M; split_cases;
    cbn beta iota zeta; intros [= <- <-] || intros [= <-] || intros [=].
  all: first
    [ exists []; split; [by rewrite app_nil_r|by intros c ?%elem_of_nil]
    | eexists [_]; split;
      [reflexivity|by intros c ->%list_elem_of_singleton] ].
Qed.

Lemma C9_failed_validation_writes_nothing_witness :
  handle refuse_falsy_fields (PutTask env2 "t1" alice body_blank_title) world1
    = (Raise (InputValidationError msg_title_empty_if_provided), world1)
  ∧ task_table world1 !! "t1" = Some task1
  ∧ handle refuse_falsy_fields (PutMe env2 alice body_empty_first_name) world1
    = (Raise (InputValidationError msg_person_fields), world1)
  ∧ task_table
      (handle refuse_falsy_fields (PostTasks env2 alice body_blank_title)
         world1).2 = task_table world1.
Proof.
  do 3 (split; [reflexivity|]).
  apply (C9_failed_validation_writes_nothing refuse_falsy_fields
           (PostTasks env2 alice body_blank_title) world1 msg_title_empty).
  reflexivity.
Defined.

(** C10: an update that supplies a [completed] other than [None], with no
    title or with a title that is a string and not blank, on a task of the
    acting person, stores [bool(completed)] as the task's [completed] and
    answers with the stored task; so a truthy value that is not a boolean,
    such as a non-empty string or a number other than zero, stores true. *)
Theorem C10_completed_is_truthiness env id person body w t ot :
  field body "completed" ≠ VNone →
  field body "title" = opt_value ot →
  (∀ s, ot = Some s → strip s ≠ EmptyString) →
  task_table w !! id = Some t → active t = true → entity_id t = id →
  person_id t = p_entity_id person →
  ∃ u w',
    TaskById_put env id person body w
      = (Return (get_success_response (Some "Task updated successfully.")
                   (TaskData u)), w')
    ∧ task_table w' !! id = Some u
    ∧ completed u = py_bool (field body "completed")
    ∧ (py_bool (field body "completed") = true → completed u = true)
    ∧ (∀ s, s ≠ EmptyString → py_bool (VStr s) = true)
    ∧ (∀ n, n ≠ 0 → py_bool (VInt n) = true).
Proof.
  intros Hc Ht Hs Hl Ha Hid Hp. do 2 eexists.
  split; [by apply (TaskById_put_updated env id person body w t ot)|].
  cbn [task_table]. rewrite lookup_insert_eq. split; [done|].
  assert (Hu : completed (updated_task env ot (field body "completed") t)
               = py_bool (field body "completed")).
  { unfold updated_task. cbn [completed].
    by destruct (field body "completed"). }
  split; [done|]. split; [intros Hb; by rewrite Hu|]. split.
  - intros s Hne. apply eqb_empty_false in Hne. cbn [py_bool]. by rewrite Hne.
  - intros n Hn. apply Z.eqb_neq in Hn. cbn [py_bool]. by rewrite Hn.
Qed.

Lemma C10_completed_is_truthiness_witness :
  field body_completed_text "completed" = VStr "no"
  ∧ completed task1 = true
  ∧ ∃ u w',
      TaskById_put env2 "t1" alice body_completed_text world1
        = (Return (get_success_response (Some "Task updated successfully.")
                     (TaskData u)), w')
      ∧ task_table w' !! "t1" = Some u
      ∧ completed u = true.
Proof.
  do 2 (split; [reflexivity|]).
  destruct (C10_completed_is_truthiness env2 "t1" alice body_completed_text
              world1 task1 None)
    as (u & w' & Hr & Hl & Hc & _); try reflexivity; try discriminate.
  exists u, w'. by repeat split.
Defined.


(** * More on the handlers *)

(** ** Trimming *)

Lemma rstrip_idempotent (s : string) : rstrip (rstrip s) = rstrip s.
Proof.
  induction s as [|c s IH]; [done|]. cbn [rstrip].
  destruct (rstrip s) as [|a r] eqn:Hr.
  - destruct (py_isspace c) eqn:Hc; [done|]. cbn [rstrip]. by rewrite Hc.
  - change (rstrip (String c (String a r))) with
      (match rstrip (String a r) with
       | EmptyString =>
           if py_isspace c then EmptyString else String c EmptyString
       | x => String c x
       end).
    by rewrite IH.
Qed.

Lemma lstrip_fixed (s : string) :
  (∀ c s', s = String c s' → py_isspace c = false) → lstrip s = s.
Proof.
  destruct s as [|c s]; [done|]. intros H. cbn [lstrip].
  by rewrite (H c s eq_refl).
Qed.

Lemma strip_idempotent (s : string) : strip (strip s) = strip s.
Proof.
  unfold strip at 1. rewrite (lstrip_fixed (strip s)).
  - unfold strip. apply rstrip_idempotent.
  - intros c s' H. by apply (strip_head s c s').
Qed.

Lemma strip_trimmed (s : string) : strip s ≠ EmptyString → trimmed (strip s).
Proof. intros H. split; [apply strip_idempotent|done]. Qed.

Lemma string_check_nonblank (s : string) :
  negb (py_bool (VStr s)) || str_strip_empty (VStr s) = false →
  strip s ≠ EmptyString.
Proof. intros [_ H]%orb_false_elim. by apply eqb_empty_false. Qed.

(** ** The row a request writes *)

Ltac nonblank_title :=
  match goal with
  | H : context [str_strip_empty (VStr ?s)] |- strip ?s ≠ _ =>
      cbn [is_None negb andb] in H; by apply string_check_nonblank in H
  end.

Lemma handle_writes vrf req w :
  task_table (handle vrf req w).2 = task_table w
  ∨ ∃ u, task_table (handle vrf req w).2 = <[entity_id u := u]> (task_table w)
       ∧ written_row req (task_table w) u.
Proof.
  destruct req; unfold_handlers; unfold_M; split_cases;
    cbn -[lookup insert]; try by left.
  all: right;
    match goal with |- ∃ _, <[_:=?x]> _ = _ ∧ _ => exists x end;
    split; [reflexivity|].
  all: first
    [ right; do 3 (split; [reflexivity|]); eexists; split; [reflexivity|];
      nonblank_title
    | left;
      match goal with
      | H : task_table _ !! _ = Some ?t, Ha : active ?t = true |- _ =>
          eexists _, t; split; [exact H|]; split; [exact Ha|]
      end;
      do 2 (split; [reflexivity|]);
      first [ left; reflexivity
            | right; eexists; split; [reflexivity|]; nonblank_title ] ].
Qed.

Lemma handle_other_table vrf req w :
  (may_write_tasks req = false →
   task_table (handle vrf req w).2 = task_table w)
  ∧ (may_write_persons req = false →
     person_table (handle vrf req w).2 = person_table w).
Proof.
  destruct req; (split; [intros Hw|intros Hw]); try discriminate Hw;
    unfold_handlers; unfold_M; split_cases; done.
Qed.

Lemma handle_person_writes vrf req w :
  person_table (handle vrf req w).2 = person_table w
  ∨ ∃ env person body p0 q,
      req = PutMe env person body
      ∧ person_table w !! p_entity_id person = Some p0 ∧ p_active p0 = true
      ∧ person_table (handle vrf req w).2
        = <[p_entity_id p0 := q]> (person_table w)
      ∧ p_entity_id q = p_entity_id p0 ∧ p_active q = p_active p0
      ∧ name_written (first_name p0) (first_name q)
      ∧ name_written (last_name p0) (last_name q).
Proof.
  destruct req; unfold_handlers; unfold_M; split_cases;
    cbn -[lookup insert]; try by left.
  all: right;
    match goal with
    | H : person_table _ !! _ = Some ?p, Ha : p_active ?p = true
      |- context [<[_:=?x]> (person_table _) = _] =>
        eexists _, _, _, p, x; split; [reflexivity|];
        split; [exact H|]; split; [exact Ha|]
    end;
    do 3 (split; [reflexivity|]).
  all: split;
    first [ left; reflexivity
          | right; eexists; split; [reflexivity|]; nonblank_title ].
Qed.


(** ** Invariants of the tables *)

Lemma handle_row_kept vrf req w k t :
  well_keyed (task_table w) → task_table w !! k = Some t → ¬ creates k req →
  ∃ t', task_table (handle vrf req w).2 !! k = Some t'
        ∧ entity_id t' = entity_id t ∧ person_id t' = person_id t.
Proof.
  intros Hwk Hk Hnew.
  destruct (handle_writes vrf req w) as [->|(u & -> & Hu)]; [by exists t|].
  destruct (decide (entity_id u = k)) as [Heq|Hne].
  - exists u. rewrite Heq, lookup_insert_eq. split; [done|].
    destruct Hu as [(k0 & t0 & Hk0 & _ & Hid & Hp & _)|[Hc _]].
    + assert (k0 = k) as -> by by rewrite <- (Hwk k0 t0 Hk0), <- Hid.
      by simplify_eq.
    + destruct Hnew. by rewrite <- Heq.
  - exists t. by rewrite lookup_insert_ne.
Qed.

Lemma handle_row_stays vrf req w k :
  is_Some (task_table w !! k) → is_Some (task_table (handle vrf req w).2 !! k).
Proof.
  intros Hk. destruct (handle_writes vrf req w) as [->|(u & -> & _)]; [done|].
  rewrite lookup_insert. by case_decide.
Qed.

Lemma handle_row_appears vrf req w k :
  well_keyed (task_table w) → task_table w !! k = None →
  is_Some (task_table (handle vrf req w).2 !! k) → creates k req.
Proof.
  intros Hwk Hk.
  destruct (handle_writes vrf req w) as [->|(u & -> & Hu)].
  { rewrite Hk. by intros [? ?]. }
  rewrite lookup_insert. case_decide as Heq; [|rewrite Hk; by intros [? ?]].
  intros _. destruct Hu as [(k0 & t0 & Hk0 & _ & Hid & _)|[Hc _]].
  - rewrite <- Heq, Hid, (Hwk k0 t0 Hk0) in Hk. congruence.
  - by rewrite <- Heq.
Qed.

Lemma handle_titles_trimmed vrf req w :
  titles_trimmed (task_table w) →
  titles_trimmed (task_table (handle vrf req w).2).
Proof.
  intros Htr.
  destruct (handle_writes vrf req w) as [->|(u & -> & Hu)]; [done|].
  intros k t. rewrite lookup_insert. case_decide; [|apply Htr].
  intros [= <-].
  destruct Hu as [(k0 & t0 & Hk0 & _ & _ & _ & [->|(s & -> & Hs)])
                 |(_ & _ & _ & s & -> & Hs)].
  - by apply (Htr k0 t0).
  - by apply strip_trimmed.
  - by apply strip_trimmed.
Qed.

Lemma name_written_trimmed old new :
  name_trimmed old → name_written old new → name_trimmed new.
Proof.
  intros Hold [->|(s & -> & Hs)]; [done|].
  intros s' [= <-]. by apply strip_trimmed.
Qed.

Lemma handle_names_trimmed vrf req w :
  names_trimmed (person_table w) →
  names_trimmed (person_table (handle vrf req w).2).
Proof.
  intros Htr.
  destruct (handle_person_writes vrf req w)
    as [->|(env & person & body & p0 & q & _ & Hp0 & _ & -> & _ & _ & Hf & Hl)];
    [done|].
  intros k p. rewrite lookup_insert. case_decide; [|apply Htr].
  intros [= <-]. destruct (Htr _ _ Hp0) as [H1 H2].
  split; [exact (name_written_trimmed _ _ H1 Hf)
        |exact (name_written_trimmed _ _ H2 Hl)].
Qed.

Lemma run_titles_trimmed vrf reqs w :
  titles_trimmed (task_table w) →
  titles_trimmed (task_table (run_requests vrf reqs w)).
Proof.
  intros Htr. induction reqs as [|req reqs IH] using rev_ind; [done|].
  rewrite run_requests_snoc. by apply handle_titles_trimmed.
Qed.

Lemma run_names_trimmed vrf reqs w :
  names_trimmed (person_table w) →
  names_trimmed (person_table (run_requests vrf reqs w)).
Proof.
  intros Htr. induction reqs as [|req reqs IH] using rev_ind; [done|].
  rewrite run_requests_snoc. by apply handle_names_trimmed.
Qed.

Lemma well_keyed_empty : well_keyed ∅.
Proof. intros k t. by rewrite lookup_empty. Qed.

Lemma well_keyed_world2 : well_keyed (task_table world2).
Proof.
  apply (well_keyed_insert _ task1), (well_keyed_insert _ task3),
    (well_keyed_insert _ task4), well_keyed_empty.
Qed.

(** ** Tasks that are not there *)

(** X1: when no active task is stored under the requested id - none at
    all, or only a soft-deleted one, whoever owns it - an update whose body
    passes the body checks and a delete are both answered with the
    not-found message, after one fetch and without any write. *)
Theorem X1_unknown_task_not_found env id person body w :
  (∀ t, task_table w !! id = Some t → active t = false) →
  (put_body_ok body = true →
   TaskById_put env id person body w
   = (Raise (InputValidationError msg_task_not_found),
      logged (CallGetOneTask id) w))
  ∧ TaskById_delete env id person w
    = (Raise (InputValidationError msg_task_not_found),
       logged (CallGetOneTask id) w).
Proof.
  intros Hnone. split.
  - intros Hok. by apply TaskById_put_not_found.
  - by apply TaskById_delete_not_found.
Qed.

Lemma X1_unknown_task_not_found_witness :
  TaskById_put env2 "t9" alice body_milk world1
  = (Raise (InputValidationError msg_task_not_found),
     logged (CallGetOneTask "t9") world1)
  ∧ TaskById_delete env2 "t9" alice world1
    = (Raise (InputValidationError msg_task_not_found),
       logged (CallGetOneTask "t9") world1).
Proof.
  destruct (X1_unknown_task_not_found env2 "t9" alice body_milk world1)
    as [Hput Hdel]; [by intros t [=]|].
  split; [by apply Hput|exact Hdel].
Defined.

(** X2: a delete by the owner answers with the success message after one
    fetch and one save, and leaves the row stored with [active] false and
    its other fields as they were; from then on [get_task_by_id] finds
    nothing, a second delete is answered with the not-found message and
    changes nothing, and so is an update with a valid body. *)
Theorem X2_delete_then_not_found env env' id person body w t :
  task_table w !! id = Some t → active t = true → entity_id t = id →
  person_id t = p_entity_id person →
  ∃ w',
    TaskById_delete env id person w
      = (Return (get_success_response (Some "Task deleted successfully.")
                   NoData), w')
    ∧ calls w' = (calls w ++ [CallGetOneTask id; CallSaveTask id])%list
    ∧ task_table w' !! id = Some (deleted_task env t)
    ∧ (TaskService.get_task_by_id id w').1 = Return None
    ∧ (TaskById_delete env' id person w').1
      = Raise (InputValidationError msg_task_not_found)
    ∧ task_table (TaskById_delete env' id person w').2 = task_table w'
    ∧ (put_body_ok body = true →
       (TaskById_put env' id person body w').1
       = Raise (InputValidationError msg_task_not_found)).
Proof.
  intros Ht Ha Hid Hp. eexists.
  split; [by apply (TaskById_delete_deleted env id person w t)|].
  rewrite Hid. cbn [calls task_table]. split; [done|].
  assert (Hl : <[id := deleted_task env t]> (task_table w) !! id
               = Some (deleted_task env t)) by apply lookup_insert_eq.
  split; [done|].
  split.
  { unfold TaskService.get_task_by_id. unfold_M. cbn [task_table logged fst].
    by rewrite Hl. }
  set (w' := mkWorld _ _ _).
  assert (Hgone : ∀ u, task_table w' !! id = Some u → active u = false).
  { intros u. subst w'. cbn [task_table]. rewrite Hl. by intros [= <-]. }
  rewrite (TaskById_delete_not_found env' id person w' Hgone).
  do 2 (split; [done|]).
  intros Hok. by rewrite (TaskById_put_not_found env' id person body w' Hok Hgone).
Qed.

Lemma X2_delete_then_not_found_witness :
  ∃ w',
    TaskById_delete env2 "t1" alice world1
      = (Return (get_success_response (Some "Task deleted successfully.")
                   NoData), w')
    ∧ (TaskService.get_task_by_id "t1" w').1 = Return None
    ∧ (TaskById_delete env2 "t1" alice w').1
      = Raise (InputValidationError msg_task_not_found)
    ∧ (TaskById_put env2 "t1" alice body_milk w').1
      = Raise (InputValidationError msg_task_not_found).
Proof.
  destruct (X2_delete_then_not_found env2 env2 "t1" alice body_milk world1 task1)
    as (w' & Hr & _ & _ & Hg & Hd & _ & Hp); try reflexivity.
  exists w'. split; [exact Hr|]. split; [exact Hg|]. split; [exact Hd|].
  by apply Hp.
Defined.

Lemma listings_eq pid (w w' : World) :
  ∃ before after,
    (TaskService.get_tasks_by_person_id pid w).1 = Return before
    ∧ (TaskService.get_tasks_by_person_id pid w').1 = Return after
    ∧ before = execute_query pid (task_table w)
    ∧ after = execute_query pid (task_table w')
    ∧ (∀ viewer, p_entity_id viewer = pid →
         (Tasks_get viewer w').1
         = Return (get_success_response None (TasksData after))).
Proof.
  exists (execute_query pid (task_table w)),
         (execute_query pid (task_table w')).
  rewrite !get_tasks_by_person_id_eq. do 4 (split; [done|]).
  intros viewer <-. by rewrite Tasks_get_eq.
Qed.

(** X3: a successful delete takes exactly the deleted task out of the
    listings: for every person, the list [get_tasks_by_person_id] returns
    after the delete holds the tasks it held before except the deleted
    one, and [Tasks.get] answers with that list. *)
Theorem X3_delete_keeps_other_tasks_listed env id person w t :
  well_keyed (task_table w) →
  task_table w !! id = Some t → active t = true →
  person_id t = p_entity_id person →
  let w' := (TaskById_delete env id person w).2 in
  ∀ pid, ∃ before after,
    (TaskService.get_tasks_by_person_id pid w).1 = Return before
    ∧ (TaskService.get_tasks_by_person_id pid w').1 = Return after
    ∧ (∀ u, u ∈ after ↔ u ∈ before ∧ entity_id u ≠ id)
    ∧ (∀ viewer, p_entity_id viewer = pid →
         (Tasks_get viewer w').1
         = Return (get_success_response None (TasksData after))).
Proof.
  intros Hwk Ht Ha Hp w' pid.
  destruct (listings_eq pid w w')
    as (before & after & Hb & Haf & -> & -> & Hget).
  exists (execute_query pid (task_table w)),
         (execute_query pid (task_table w')).
  do 2 (split; [done|]). split; [|done].
  subst w'. rewrite (TaskById_delete_deleted env id person w t Ht Ha Hp).
  cbn [snd task_table]. pose proof (Hwk id t Ht) as Hid. rewrite Hid.
  intros u. rewrite !elem_of_execute_query. split.
  - intros [[k Hk] [Hpu Hau]]. rewrite lookup_insert in Hk.
    case_decide as Hkid.
    { injection Hk as <-. discriminate Hau. }
    split; [split; [by exists k|done]|]. by rewrite (Hwk k u Hk).
  - intros [[[k Hk] Hrest] Hne]. split; [|done]. exists k.
    rewrite lookup_insert_ne; [done|]. intros <-. by rewrite (Hwk _ _ Hk) in Hne.
Qed.

Lemma X3_delete_keeps_other_tasks_listed_witness :
  ∃ before after,
    (TaskService.get_tasks_by_person_id "p1" world2).1 = Return before
    ∧ (TaskService.get_tasks_by_person_id "p1"
         (TaskById_delete env2 "t1" alice world2).2).1 = Return after
    ∧ task1 ∈ before ∧ task3 ∈ before
    ∧ task3 ∈ after ∧ task1 ∉ after.
Proof.
  destruct (X3_delete_keeps_other_tasks_listed env2 "t1" alice world2 task1
              well_keyed_world2 eq_refl eq_refl eq_refl "p1")
    as (before & after & Hb & Ha & Hiff & _).
  exists before, after. split; [exact Hb|]. split; [exact Ha|].
  rewrite get_tasks_by_person_id_eq in Hb. injection Hb as <-.
  assert (H1 : task1 ∈ execute_query "p1" (task_table world2)).
  { apply elem_of_execute_query. split; [by exists "t1"|by split]. }
  assert (H3 : task3 ∈ execute_query "p1" (task_table world2)).
  { apply elem_of_execute_query. split; [by exists "t3"|by split]. }
  do 2 (split; [done|]). split.
  - apply Hiff. split; [exact H3|discriminate].
  - intros Hin. apply Hiff in Hin as [_ Hne]. by apply Hne.
Defined.

(** X4: after a successful create under a fresh identifier,
    [get_tasks_by_person_id] returns for the acting person the tasks it
    returned before and the new task, and for every other person exactly
    the tasks it returned before; [Tasks.get] answers with that list. *)
Theorem X4_created_task_listed_for_its_owner_only vrf env person body w s :
  field body "title" = VStr s → strip s ≠ EmptyString →
  vrf (parse_request_body body ["title"] VNone) = None →
  task_table w !! new_entity_id env = None →
  let w' := (Tasks_post vrf env person body w).2 in
  let t := mkTask (new_entity_id env) true (now env) (p_entity_id person)
             (strip s) false in
  ∀ pid, ∃ before after,
    (TaskService.get_tasks_by_person_id pid w).1 = Return before
    ∧ (TaskService.get_tasks_by_person_id pid w').1 = Return after
    ∧ (∀ u, u ∈ after ↔ u ∈ before ∨ (u = t ∧ pid = p_entity_id person))
    ∧ (∀ viewer, p_entity_id viewer = pid →
         (Tasks_get viewer w').1
         = Return (get_success_response None (TasksData after))).
Proof.
  intros Ht Hs Hv Hfresh w' t pid.
  destruct (listings_eq pid w w')
    as (before & after & Hb & Haf & -> & -> & Hget).
  exists (execute_query pid (task_table w)),
         (execute_query pid (task_table w')).
  do 2 (split; [done|]). split; [|done].
  subst w'. rewrite (Tasks_post_created vrf env person body w s Ht Hs Hv).
  cbn [snd task_table]. fold t.
  intros u. rewrite !elem_of_execute_query. split.
  - intros [[k Hk] [Hpu Hau]]. rewrite lookup_insert in Hk.
    case_decide as Hkid.
    + injection Hk as <-. right. by split.
    + left. split; [by exists k|done].
  - intros [[[k Hk] Hrest]|[-> ->]].
    + split; [|done]. exists k. rewrite lookup_insert_ne; [done|].
      intros <-. congruence.
    + split; [|done]. exists (new_entity_id env). apply lookup_insert_eq.
Qed.

Lemma X4_created_task_listed_for_its_owner_only_witness :
  ∃ before after,
    (TaskService.get_tasks_by_person_id "p2" world1).1 = Return before
    ∧ (Tasks_get bob
         (Tasks_post refuse_falsy_fields env2 bob body_milk world1).2).1
      = Return (get_success_response None (TasksData after))
    ∧ mkTask "t2" true 20 "p2" "Buy milk" false ∈ after.
Proof.
  assert (Hs : strip "  Buy milk  " ≠ EmptyString) by discriminate.
  destruct (X4_created_task_listed_for_its_owner_only refuse_falsy_fields env2 bob body_milk world1 "  Buy milk  "
              eq_refl Hs eq_refl eq_refl "p2")
    as (before & after & Hb & _ & Hiff & Hget).
  exists before, after. split; [exact Hb|]. split; [by apply Hget|].
  apply Hiff. right. by split.
Defined.

Lemma sample_requests_create_t2_only :
  Forall (λ req, ¬ creates "t1" req) sample_requests.
Proof. repeat constructor; cbn; intros H; first [by destruct H|discriminate H]. Qed.

(** X5: through any sequence of requests none of which constructs a new
    task under the identifier [k], the row stored under [k] stays stored,
    with the same [entity_id] and the same [person_id]: no handler reassigns
    the owner of a task. *)
Theorem X5_owner_never_reassigned vrf reqs w k t :
  well_keyed (task_table w) → task_table w !! k = Some t →
  Forall (λ req, ¬ creates k req) reqs →
  ∃ t', task_table (run_requests vrf reqs w) !! k = Some t'
        ∧ entity_id t' = entity_id t ∧ person_id t' = person_id t.
Proof.
  intros Hwk Hk. induction reqs as [|req reqs IH] using rev_ind.
  { intros _. by exists t. }
  intros [Hreqs Hreq]%Forall_app. apply Forall_cons_1 in Hreq as [Hreq _].
  destruct (IH Hreqs) as (t1 & Ht1 & Hid & Hp).
  rewrite run_requests_snoc.
  destruct (handle_row_kept vrf req (run_requests vrf reqs w) k t1)
    as (t2 & Ht2 & Hid2 & Hp2); [by apply run_requests_well_keyed|done..|].
  exists t2. split; [done|]. split; congruence.
Qed.

Lemma X5_owner_never_reassigned_witness :
  ∃ t', task_table (run_requests refuse_falsy_fields sample_requests world1)
        !! "t1" = Some t'
        ∧ entity_id t' = "t1" ∧ person_id t' = "p1".
Proof.
  apply (X5_owner_never_reassigned refuse_falsy_fields sample_requests world1
           "t1" task1 well_keyed_world1 eq_refl
           sample_requests_create_t2_only).
Defined.

(** X6: no sequence of requests removes a row from the task table: a key
    that holds a task keeps holding one (a delete request only marks it). *)
Theorem X6_rows_never_removed vrf reqs w k :
  is_Some (task_table w !! k) →
  is_Some (task_table (run_requests vrf reqs w) !! k).
Proof.
  intros Hk. induction reqs as [|req reqs IH] using rev_ind; [done|].
  rewrite run_requests_snoc. by apply handle_row_stays.
Qed.

Lemma X6_rows_never_removed_witness :
  is_Some (task_table world1 !! "t1")
  ∧ is_Some (task_table
               (run_requests refuse_falsy_fields sample_requests world1)
             !! "t1").
Proof.
  assert (H : is_Some (task_table world1 !! "t1")) by by exists task1.
  split; [exact H|].
  exact (X6_rows_never_removed refuse_falsy_fields sample_requests world1
           "t1" H).
Defined.

(** X7: a key that holds no task can come to hold one only through a create
    request that constructs a task under that identifier; updates and
    deletes never add a row. *)
Theorem X7_rows_appear_only_by_create vrf reqs w k :
  well_keyed (task_table w) → task_table w !! k = None →
  is_Some (task_table (run_requests vrf reqs w) !! k) →
  Exists (creates k) reqs.
Proof.
  intros Hwk Hk. induction reqs as [|req reqs IH] using rev_ind.
  { cbn. rewrite Hk. by intros [? ?]. }
  rewrite run_requests_snoc. intros Hsome. apply Exists_app.
  destruct (task_table (run_requests vrf reqs w) !! k) as [t|] eqn:Hprev.
  - left. apply IH. by eexists.
  - right. constructor.
    apply (handle_row_appears vrf req (run_requests vrf reqs w));
      [by apply run_requests_well_keyed|done..].
Qed.

Lemma X7_rows_appear_only_by_create_witness :
  task_table world1 !! "t2" = None
  ∧ Exists (creates "t2") sample_requests.
Proof.
  split; [reflexivity|].
  apply (X7_rows_appear_only_by_create refuse_falsy_fields sample_requests
           world1 "t2" well_keyed_world1 eq_refl).
  vm_compute. by eexists.
Defined.

Lemma titles_trimmed_world1 : titles_trimmed (task_table world1).
Proof.
  intros k t. unfold world1. cbn [task_table]. rewrite lookup_insert.
  case_decide; [|by rewrite lookup_empty]. intros [= <-]. by split.
Qed.

(** X8: if every stored title is trimmed and not empty, this remains so after
    any sequence of requests: create and update store [title.strip()] only
    when it is not empty, and nothing else writes a title. In particular no
    stored title starts with a space. *)
Theorem X8_stored_titles_stay_trimmed vrf reqs w :
  titles_trimmed (task_table w) →
  ∀ k t, task_table (run_requests vrf reqs w) !! k = Some t →
    strip (title t) = title t ∧ title t ≠ EmptyString
    ∧ (∀ c s, title t = String c s → py_isspace c = false).
Proof.
  intros Htr k t Hk.
  destruct (run_titles_trimmed vrf reqs w Htr k t Hk) as [H1 H2].
  do 2 (split; [done|]). intros c s Hc. apply (strip_head (title t) c s).
  by rewrite H1.
Qed.

Lemma X8_stored_titles_stay_trimmed_witness :
  ∃ t, task_table (run_requests refuse_falsy_fields sample_requests world1)
       !! "t2" = Some t
       ∧ strip (title t) = title t ∧ title t ≠ EmptyString.
Proof.
  eexists. split; [vm_compute; reflexivity|].
  destruct (X8_stored_titles_stay_trimmed refuse_falsy_fields sample_requests
              world1 titles_trimmed_world1 "t2"
              (mkTask "t2" true 20 "p2" "Buy milk" false))
    as (H1 & H2 & _); [vm_compute; reflexivity|].
  split; [exact H1|exact H2].
Defined.

Lemma names_trimmed_world1 : names_trimmed (person_table world1).
Proof.
  intros k p. unfold world1. cbn [person_table]. rewrite !lookup_insert.
  repeat case_decide; rewrite ?lookup_empty; intros [= <-];
    split; intros s [= <-]; by split.
Qed.

(** X9: if every stored first and last name is trimmed and not empty, this
    remains so after any sequence of requests: [Me.put] stores a supplied
    name stripped, and only when the stripped name is not empty. *)
Theorem X9_stored_names_stay_trimmed vrf reqs w :
  names_trimmed (person_table w) →
  ∀ k p, person_table (run_requests vrf reqs w) !! k = Some p →
    (∀ s, first_name p = Some s → strip s = s ∧ s ≠ EmptyString)
    ∧ (∀ s, last_name p = Some s → strip s = s ∧ s ≠ EmptyString).
Proof. intros Htr k p Hk. by apply (run_names_trimmed vrf reqs w Htr k p). Qed.

Lemma X9_stored_names_stay_trimmed_witness :
  ∃ p, person_table (run_requests refuse_falsy_fields sample_requests world1)
       !! "p1" = Some p
       ∧ first_name p = Some "Alicia"
       ∧ strip "Alicia" = "Alicia".
Proof.
  eexists. split; [vm_compute; reflexivity|]. split; [reflexivity|].
  destruct (X9_stored_names_stay_trimmed refuse_falsy_fields sample_requests
              world1 names_trimmed_world1 "p1"
              (mkPerson "p1" true 20 (Some "Alicia") (Some "Liddell")))
    as [Hf _]; [vm_compute; reflexivity|].
  by destruct (Hf "Alicia" eq_refl).
Defined.

(** X10: the task table is changed only by create, update and delete
    requests on tasks, and the person table only by profile updates: the two
    GET handlers and the profile handlers leave the task table as it is, and
    every handler but [Me.put] leaves the person table as it is, whatever
    they answer. *)
Theorem X10_tables_written_by_their_own_requests vrf reqs w :
  (Forall (λ req, may_write_tasks req = false) reqs →
   task_table (run_requests vrf reqs w) = task_table w)
  ∧ (Forall (λ req, may_write_persons req = false) reqs →
     person_table (run_requests vrf reqs w) = person_table w).
Proof.
  induction reqs as [|req reqs [IHt IHp]] using rev_ind; [done|].
  rewrite run_requests_snoc.
  destruct (handle_other_table vrf req (run_requests vrf reqs w)) as [Ht Hp].
  split; intros [Hreqs Hreq]%Forall_app;
    apply Forall_cons_1 in Hreq as [Hreq _].
  - rewrite Ht by done. by apply IHt.
  - rewrite Hp by done. by apply IHp.
Qed.

Lemma X10_tables_written_by_their_own_requests_witness :
  task_table (run_requests refuse_falsy_fields
                [GetTasks alice; PutMe env2 alice body_first_name;
                 GetMe bob] world1) = task_table world1
  ∧ person_table (run_requests refuse_falsy_fields
                    [PostTasks env2 bob body_milk;
                     PutTask env2 "t1" alice body_retitle;
                     DeleteTask env2 "t1" alice; GetTasks bob] world1)
    = person_table world1.
Proof.
  split.
  - apply (X10_tables_written_by_their_own_requests refuse_falsy_fields
             [GetTasks alice; PutMe env2 alice body_first_name; GetMe bob]
             world1).
    by repeat constructor.
  - apply (X10_tables_written_by_their_own_requests refuse_falsy_fields
             [PostTasks env2 bob body_milk;
              PutTask env2 "t1" alice body_retitle;
              DeleteTask env2 "t1" alice; GetTasks bob] world1).
    by repeat constructor.
Defined.


(** ** Updates *)

(** X11: a successful update changes only what the body supplies: the row
    keeps its identifier, owner and [active] flag, takes the trimmed title if
    a title is supplied and keeps its title otherwise, keeps [completed] if
    none is supplied, and is stamped with the time of the request; every
    other row of the task table and the whole person table are as before. *)
Theorem X11_update_changes_supplied_fields_only env id person body w t ot :
  field body "title" = opt_value ot →
  (∀ s, ot = Some s → strip s ≠ EmptyString) →
  (ot = None → field body "completed" ≠ VNone) →
  task_table w !! id = Some t → active t = true → entity_id t = id →
  person_id t = p_entity_id person →
  ∃ u w',
    TaskById_put env id person body w
      = (Return (get_success_response (Some "Task updated successfully.")
                   (TaskData u)), w')
    ∧ task_table w' !! id = Some u
    ∧ entity_id u = id ∧ person_id u = person_id t ∧ active u = true
    ∧ changed_on u = now env
    ∧ (∀ s, ot = Some s → title u = strip s)
    ∧ (ot = None → title u = title t)
    ∧ (field body "completed" = VNone → completed u = completed t)
    ∧ (∀ k, k ≠ id → task_table w' !! k = task_table w !! k)
    ∧ person_table w' = person_table w.
Proof.
  intros Ht Hs Hc Hl Ha Hid Hp. do 2 eexists.
  split; [by apply (TaskById_put_updated env id person body w t ot)|].
  cbn [task_table person_table]. rewrite lookup_insert_eq.
  unfold updated_task. cbn [entity_id person_id active changed_on title completed].
  do 5 (split; [done|]).
  split; [by intros s ->|]. split; [by intros ->|].
  split; [by intros ->|]. split; [|done].
  intros k Hk. by rewrite lookup_insert_ne.
Qed.

Lemma X11_update_changes_supplied_fields_only_witness :
  ∃ u w',
    TaskById_put env2 "t1" alice body_retitle world2
      = (Return (get_success_response (Some "Task updated successfully.")
                   (TaskData u)), w')
    ∧ title u = "Buy oat milk" ∧ completed u = completed task1
    ∧ task_table w' !! "t3" = Some task3.
Proof.
  destruct (X11_update_changes_supplied_fields_only env2 "t1" alice
              body_retitle world2 task1 (Some " Buy oat milk "))
    as (u & w' & Hr & _ & _ & _ & _ & _ & Ht & _ & Hc & Hk & _);
    try reflexivity; try discriminate.
  { intros s [= <-]. discriminate. }
  exists u, w'. split; [exact Hr|].
  split; [exact (Ht " Buy oat milk " eq_refl)|].
  split; [by apply Hc|]. rewrite Hk; [reflexivity|discriminate].
Defined.

(** X12: a successful update moves no task in or out of a listing: for every
    person, the list [get_tasks_by_person_id] returns after the update holds
    the same task identifiers as before, every task but the updated one is
    in it exactly if it was before, and [Tasks.get] answers with that
    list. *)
Theorem X12_update_keeps_the_listings env id person body w t ot :
  well_keyed (task_table w) →
  field body "title" = opt_value ot →
  (∀ s, ot = Some s → strip s ≠ EmptyString) →
  (ot = None → field body "completed" ≠ VNone) →
  task_table w !! id = Some t → active t = true →
  person_id t = p_entity_id person →
  let w' := (TaskById_put env id person body w).2 in
  ∀ pid, ∃ before after,
    (TaskService.get_tasks_by_person_id pid w).1 = Return before
    ∧ (TaskService.get_tasks_by_person_id pid w').1 = Return after
    ∧ (∀ id', id' ∈ entity_id <$> after ↔ id' ∈ entity_id <$> before)
    ∧ (∀ u, entity_id u ≠ id → u ∈ after ↔ u ∈ before)
    ∧ (∀ viewer, p_entity_id viewer = pid →
         (Tasks_get viewer w').1
         = Return (get_success_response None (TasksData after))).
Proof.
  intros Hwk Ht Hs Hc Hl Ha Hp w' pid.
  destruct (listings_eq pid w w')
    as (before & after & Hb & Haf & -> & -> & Hget).
  exists (execute_query pid (task_table w)),
         (execute_query pid (task_table w')).
  do 2 (split; [done|]).
  pose proof (Hwk id t Hl) as Hid.
  assert (Htbl : task_table w'
                 = <[id := updated_task env ot (field body "completed") t]>
                     (task_table w)).
  { subst w'.
    by rewrite (TaskById_put_updated env id person body w t ot
                  Ht Hs Hc Hl Ha Hid Hp). }
  set (u0 := updated_task env ot (field body "completed") t) in *.
  assert (Hu0 : entity_id u0 = id ∧ person_id u0 = person_id t
                ∧ active u0 = true) by by rewrite <- Hid, <- Ha.
  destruct Hu0 as (Hu0id & Hu0p & Hu0a).
  split; [|split; [|done]].
  - intros id'. rewrite !list_elem_of_fmap. split.
    + intros (u & -> & Hin). rewrite Htbl in Hin.
      apply elem_of_execute_query in Hin as [[k Hk] [Hpu Hau]].
      rewrite lookup_insert in Hk. case_decide as Hkid.
      * injection Hk as <-. exists t. split; [congruence|].
        apply elem_of_execute_query. split; [by exists id|].
        split; [congruence|done].
      * exists u. split; [done|]. apply elem_of_execute_query.
        split; [by exists k|done].
    + intros (u & -> & Hin).
      apply elem_of_execute_query in Hin as [[k Hk] [Hpu Hau]].
      destruct (decide (k = id)) as [->|Hkid].
      * assert (u = t) as -> by congruence.
        exists u0. split; [congruence|]. rewrite Htbl.
        apply elem_of_execute_query. split; [|split; [congruence|done]].
        exists id. apply lookup_insert_eq.
      * exists u. split; [done|]. rewrite Htbl.
        apply elem_of_execute_query. split; [|done].
        exists k. by rewrite lookup_insert_ne.
  - intros u Hne. rewrite Htbl, !elem_of_execute_query. split.
    + intros [[k Hk] Hrest]. rewrite lookup_insert in Hk.
      case_decide as Hkid; [congruence|]. split; [by exists k|done].
    + intros [[k Hk] Hrest]. split; [|done]. exists k.
      rewrite lookup_insert_ne; [done|]. intros <-.
      by rewrite (Hwk _ _ Hk) in Hne.
Qed.

Lemma X12_update_keeps_the_listings_witness :
  ∃ before after,
    (TaskService.get_tasks_by_person_id "p1" world2).1 = Return before
    ∧ (TaskService.get_tasks_by_person_id "p1"
         (TaskById_put env2 "t1" alice body_retitle world2).2).1 = Return after
    ∧ ("t1" ∈ entity_id <$> after ↔ "t1" ∈ entity_id <$> before)
    ∧ (task3 ∈ after ↔ task3 ∈ before).
Proof.
  assert (Hs : ∀ s, Some " Buy oat milk " = Some s → strip s ≠ EmptyString).
  { intros s [= <-]. discriminate. }
  assert (Hc : Some " Buy oat milk " = @None string →
               field body_retitle "completed" ≠ VNone) by discriminate.
  destruct (X12_update_keeps_the_listings env2 "t1" alice body_retitle world2 task1
              (Some " Buy oat milk ") well_keyed_world2 eq_refl Hs Hc
              eq_refl eq_refl eq_refl "p1")
    as (before & after & Hb & Ha & Hids & Hrec & _).
  exists before, after. split; [exact Hb|]. split; [exact Ha|].
  split; [exact (Hids "t1")|]. apply Hrec. discriminate.
Defined.

(** ** The listing *)

Lemma task_rows_ids tbl :
  well_keyed tbl → entity_id <$> task_rows tbl = (map_to_list tbl).*1.
Proof.
  intros Hwk. unfold task_rows. rewrite <- list_fmap_compose.
  apply list_fmap_ext. intros i [k t] Hi. cbn.
  apply Hwk, elem_of_map_to_list. by eapply list_elem_of_lookup_2.
Qed.

(** X13: on a table keyed by [entity_id], the listing of a person holds no
    task twice: the identifiers of the listed tasks are pairwise distinct. *)
Theorem X13_listing_has_no_task_twice pid w :
  well_keyed (task_table w) →
  ∃ tasks,
    (TaskService.get_tasks_by_person_id pid w).1 = Return tasks
    ∧ NoDup (entity_id <$> tasks)
    ∧ NoDup tasks.
Proof.
  intros Hwk. exists (execute_query pid (task_table w)).
  split; [by rewrite get_tasks_by_person_id_eq|].
  assert (Hids : NoDup (entity_id <$> execute_query pid (task_table w))).
  { apply (NoDup_Permutation_proper _ _
             (fmap_Permutation entity_id _ _
                (execute_query_Permutation pid (task_table w)))).
    apply (sublist_NoDup _ (entity_id <$> task_rows (task_table w))).
    - rewrite task_rows_ids by done. apply NoDup_fst_map_to_list.
    - apply (fmap_sublist entity_id), sublist_filter. }
  split; [done|]. by apply (NoDup_fmap_1 entity_id).
Qed.

Lemma X13_listing_has_no_task_twice_witness :
  ∃ tasks,
    (TaskService.get_tasks_by_person_id "p1" world2).1 = Return tasks
    ∧ NoDup (entity_id <$> tasks).
Proof.
  destruct (X13_listing_has_no_task_twice "p1" world2 well_keyed_world2)
    as (tasks & Hr & Hn & _).
  exists tasks. split; [exact Hr|exact Hn].
Defined.

(** X14: when an update succeeds at a time later than the [changed_on] of
    every other stored task, the updated task is the first entry of the
    owner's listing (most recently changed first). *)
Theorem X14_updated_task_heads_the_listing env id person body w t ot :
  well_keyed (task_table w) →
  field body "title" = opt_value ot →
  (∀ s, ot = Some s → strip s ≠ EmptyString) →
  (ot = None → field body "completed" ≠ VNone) →
  task_table w !! id = Some t → active t = true →
  person_id t = p_entity_id person →
  (∀ k t', task_table w !! k = Some t' → k ≠ id → changed_on t' < now env) →
  ∃ u rest,
    (TaskById_put env id person body w).1
      = Return (get_success_response (Some "Task updated successfully.")
                  (TaskData u))
    ∧ (Tasks_get person (TaskById_put env id person body w).2).1
      = Return (get_success_response None (TasksData (u :: rest))).
Proof.
  intros Hwk Ht Hs Hc Hl Ha Hp Hnow.
  pose proof (Hwk id t Hl) as Hid.
  rewrite (TaskById_put_updated env id person body w t ot Ht Hs Hc Hl Ha Hid Hp).
  cbn [fst snd]. rewrite Tasks_get_eq. cbn [fst task_table].
  set (u := updated_task env ot (field body "completed") t).
  set (tbl' := <[id := u]> (task_table w)).
  assert (Hin : u ∈ execute_query (p_entity_id person) tbl').
  { apply elem_of_execute_query. split; [|by rewrite <- Hp, <- Ha].
    exists id. apply lookup_insert_eq. }
  assert (Hsorted : StronglySorted newer_first
                      (execute_query (p_entity_id person) tbl'))
    by apply (StronglySorted_merge_sort newer_first).
  destruct (execute_query (p_entity_id person) tbl') as [|h rest] eqn:Hq.
  { by apply elem_of_nil in Hin. }
  exists u, rest. split; [done|]. do 3 f_equal.
  assert (Hh : h ∈ execute_query (p_entity_id person) tbl')
    by (rewrite Hq; left).
  apply elem_of_execute_query in Hh as [[k Hk] _].
  unfold tbl' in Hk. rewrite lookup_insert in Hk.
  case_decide as Hkid; [by simplify_eq|].
  specialize (Hnow k h Hk (not_eq_sym Hkid)).
  apply StronglySorted_inv in Hsorted as [_ Hall].
  apply elem_of_cons in Hin as [->|Hin]; [done|].
  rewrite Forall_forall in Hall. specialize (Hall u Hin).
  unfold newer_first in Hall. cbn [changed_on u updated_task] in Hall. lia.
Qed.

Lemma X14_updated_task_heads_the_listing_witness :
  changed_on task1 = 10 ∧ changed_on task3 = 5 ∧ now env2 = 20
  ∧ ∃ u rest,
      (Tasks_get alice (TaskById_put env2 "t3" alice body_retitle world2).2).1
      = Return (get_success_response None (TasksData (u :: rest)))
      ∧ entity_id u = "t3".
Proof.
  do 3 (split; [reflexivity|]).
  assert (Hs : ∀ s, Some " Buy oat milk " = Some s → strip s ≠ EmptyString).
  { intros s [= <-]. discriminate. }
  assert (Hc : Some " Buy oat milk " = @None string →
               field body_retitle "completed" ≠ VNone) by discriminate.
  assert (Hnow : ∀ k t', task_table world2 !! k = Some t' → k ≠ "t3" →
                 changed_on t' < now env2).
  { intros k t'. unfold world2. cbn [task_table]. rewrite !lookup_insert.
    repeat case_decide; rewrite ?lookup_empty; intros [= <-]; done. }
  destruct (X14_updated_task_heads_the_listing env2 "t3" alice body_retitle
              world2 task3 (Some " Buy oat milk ") well_keyed_world2
              eq_refl Hs Hc eq_refl eq_refl eq_refl Hnow)
    as (u & rest & Hr & Hg).
  exists u, rest. split; [exact Hg|]. injection Hr as <-. reflexivity.
Defined.




(** ** Values that are not strings *)

Lemma TaskById_put_not_a_string env id person body w t :
  py_bool (field body "title") = true →
  (∀ s, field body "title" ≠ VStr s) →
  task_table w !! id = Some t → active t = true →
  person_id t = p_entity_id person →
  TaskById_put env id person body w
  = (Raise AttributeError, logged (CallGetOneTask id) w).
Proof.
  intros Hb Hs Ht Ha Hp.
  assert (H1 : is_None (field body "title")
               && is_None (field body "completed") = false)
    by by destruct (field body "title").
  assert (H2 : negb (is_None (field body "title"))
               && (negb (py_bool (field body "title"))
                   || str_strip_empty (field body "title")) = false).
  { rewrite Hb. destruct (field body "title") eqn:Hv; try done.
    by destruct (Hs s). }
  assert (H3 : is_None (field body "title") = false)
    by by destruct (field body "title").
  unfold_handlers. unfold_M.
  rewrite H1, H2, Ht, Ha, Hp, String.eqb_refl, H3. cbn [negb].
  destruct (field body "title") eqn:Hv; try done. by destruct (Hs s).
Qed.

(** X15: a title that is truthy but not a string (a number, [True], a
    non-empty list or dict) passes the emptiness checks and then fails on
    [title.strip()]: the create, once [validate_required_fields] accepts the
    body, and the update of an own task both end in an [AttributeError]
    instead of a validation error, before any save. *)
Theorem X15_title_not_a_string_is_a_crash vrf env id person body w :
  py_bool (field body "title") = true →
  (∀ s, field body "title" ≠ VStr s) →
  (vrf (parse_request_body body ["title"] VNone) = None →
   Tasks_post vrf env person body w = (Raise AttributeError, w))
  ∧ (∀ t, task_table w !! id = Some t → active t = true →
       person_id t = p_entity_id person →
       TaskById_put env id person body w
       = (Raise AttributeError, logged (CallGetOneTask id) w)).
Proof.
  intros Hb Hs. split.
  - intros Hv. by apply Tasks_post_not_a_string.
  - intros t Ht Ha Hp. by apply (TaskById_put_not_a_string _ _ _ _ _ t).
Qed.

Lemma X15_title_not_a_string_is_a_crash_witness :
  field body_number_title "title" = VInt 5
  ∧ Tasks_post refuse_falsy_fields env2 alice body_number_title world1
    = (Raise AttributeError, world1)
  ∧ (TaskById_put env2 "t1" alice body_number_title world1).1
    = Raise AttributeError
  ∧ task_table (TaskById_put env2 "t1" alice body_number_title world1).2
    = task_table world1.
Proof.
  split; [reflexivity|].
  destruct (X15_title_not_a_string_is_a_crash refuse_falsy_fields env2 "t1"
              alice body_number_title world1 eq_refl) as [Hpost Hput].
  { intros s. discriminate. }
  split; [by apply Hpost|].
  rewrite (Hput task1 eq_refl eq_refl eq_refl). by split.
Defined.

(** X16: in a profile update whose body passes the three checks, a provided
    name that is not a string - [first_name], or [last_name] whatever
    [first_name] is - fails on [.strip()]: when the person is stored, the
    request ends in an [AttributeError] after the fetch and before any
    save. *)
Theorem X16_name_not_a_string_is_a_crash env person body w p :
  me_body_ok body = true →
  (field body "first_name" ≠ VNone ∧ ∀ s, field body "first_name" ≠ VStr s)
  ∨ (field body "last_name" ≠ VNone ∧ ∀ s, field body "last_name" ≠ VStr s) →
  person_table w !! p_entity_id person = Some p → p_active p = true →
  Me_put env person body w
  = (Raise AttributeError, logged (CallGetOnePerson (p_entity_id person)) w).
Proof.
  unfold me_body_ok, empty_if_provided.
  intros [[H0 H1]%andb_prop H2]%andb_prop Hns Hp Ha.
  apply negb_true_iff in H0, H1, H2.
  unfold_handlers. unfold_M. rewrite H0, H1, H2, Hp, Ha.
  destruct (field body "first_name") eqn:Hf;
    destruct (field body "last_name") eqn:Hl; try done.
  all: destruct Hns as [[Hn Hs]|[Hn Hs]]; try done;
    by destruct (Hs _ eq_refl).
Qed.

Lemma X16_name_not_a_string_is_a_crash_witness :
  Me_put env2 alice body_number_name world1
  = (Raise AttributeError, logged (CallGetOnePerson "p1") world1)
  ∧ Me_put env2 alice body_number_last_name world1
    = (Raise AttributeError, logged (CallGetOnePerson "p1") world1).
Proof.
  split.
  - apply (X16_name_not_a_string_is_a_crash env2 alice body_number_name world1 alice);
      [reflexivity| |reflexivity|reflexivity].
    left. split; [discriminate|]. intros s. discriminate.
  - apply (X16_name_not_a_string_is_a_crash env2 alice body_number_last_name world1 alice);
      [reflexivity| |reflexivity|reflexivity].
    right. split; [discriminate|]. intros s. discriminate.
Defined.

(** ** Persons that are not there *)

(** X17: when no active person is stored under the acting person's id,
    [Me.get], and [Me.put] with a body that passes its three checks, are
    answered with the person-not-found message after one fetch, without any
    write. *)
Theorem X17_unknown_person_not_found env person body w :
  (∀ p, person_table w !! p_entity_id person = Some p → p_active p = false) →
  Me_get person w
  = (Raise (InputValidationError msg_person_not_found),
     logged (CallGetOnePerson (p_entity_id person)) w)
  ∧ (me_body_ok body = true →
     Me_put env person body w
     = (Raise (InputValidationError msg_person_not_found),
        logged (CallGetOnePerson (p_entity_id person)) w)).
Proof.
  intros Hnone. split.
  - unfold_handlers. unfold_M.
    destruct (person_table w !! p_entity_id person) as [p|] eqn:Hp; [|done].
    by rewrite (Hnone p eq_refl).
  - unfold me_body_ok, empty_if_provided.
    intros [[H1 H2]%andb_prop H3]%andb_prop.
    apply negb_true_iff in H1, H2, H3.
    unfold_handlers. unfold_M. rewrite H1, H2, H3.
    destruct (person_table w !! p_entity_id person) as [p|] eqn:Hp; [|done].
    by rewrite (Hnone p eq_refl).
Qed.

Lemma X17_unknown_person_not_found_witness :
  person_table world1 !! p_entity_id carol = None
  ∧ Me_get carol world1
    = (Raise (InputValidationError msg_person_not_found),
       logged (CallGetOnePerson "p3") world1)
  ∧ Me_put env2 carol body_first_name world1
    = (Raise (InputValidationError msg_person_not_found),
       logged (CallGetOnePerson "p3") world1).
Proof.
  split; [reflexivity|].
  destruct (X17_unknown_person_not_found env2 carol body_first_name world1)
    as [Hget Hput]; [by intros p [=]|].
  split; [exact Hget|]. by apply Hput.
Defined.

(** ** Which message *)

(** X18: [Me.put] checks [first_name] before [last_name]: when at least one
    name is truthy, a provided [first_name] that is empty, falsy or blank
    gives the first-name message whatever [last_name] is, and the last-name
    message is given only when [first_name] passes; the three validation
    messages of [Me.put] are pairwise different. *)
Theorem X18_profile_checks_in_order env person body w :
  py_bool (field body "first_name") = true
  ∨ py_bool (field body "last_name") = true →
  (empty_if_provided (field body "first_name") = true →
   Me_put env person body w
   = (Raise (InputValidationError msg_first_name_empty), w))
  ∧ (empty_if_provided (field body "first_name") = false →
     empty_if_provided (field body "last_name") = true →
     Me_put env person body w
     = (Raise (InputValidationError msg_last_name_empty), w))
  ∧ msg_first_name_empty ≠ msg_last_name_empty
  ∧ msg_first_name_empty ≠ msg_person_fields
  ∧ msg_last_name_empty ≠ msg_person_fields.
Proof.
  intros Hsome.
  assert (H0 : negb (py_bool (field body "first_name"))
               && negb (py_bool (field body "last_name")) = false).
  { destruct Hsome as [-> | ->]; [done|]. by rewrite andb_false_r. }
  unfold empty_if_provided. split; [|split; [|done]].
  - intros H1. unfold_handlers. unfold_M. by rewrite H0, H1.
  - intros H1 H2. unfold_handlers. unfold_M. by rewrite H0, H1, H2.
Qed.

Lemma X18_profile_checks_in_order_witness :
  Me_put env2 alice body_blank_names world1
  = (Raise (InputValidationError msg_first_name_empty), world1)
  ∧ Me_put env2 alice body_blank_last_name world1
    = (Raise (InputValidationError msg_last_name_empty), world1).
Proof.
  split.
  - apply (X18_profile_checks_in_order env2 alice body_blank_names world1);
      [by left|reflexivity].
  - apply (X18_profile_checks_in_order env2 alice body_blank_last_name world1);
      [by left|reflexivity|reflexivity].
Defined.

(** X19: in an update, any provided title that is falsy ([0], [False], the
    empty string, an empty list or dict) or a blank string is answered with
    the empty-title message, whether or not [completed] is supplied, and
    without any repository call. *)
Theorem X19_provided_falsy_title_is_empty env id person body w :
  field body "title" ≠ VNone →
  py_bool (field body "title") = false
  ∨ str_strip_empty (field body "title") = true →
  TaskById_put env id person body w
  = (Raise (InputValidationError msg_title_empty_if_provided), w).
Proof.
  intros Hsome Hbad. unfold_handlers. unfold_M.
  assert (is_None (field body "title") = false) as ->
    by by destruct (field body "title").
  cbn [andb negb].
  assert (negb (py_bool (field body "title"))
          || str_strip_empty (field body "title") = true) as ->; [|done].
  destruct Hbad as [-> | ->]; [done|apply orb_true_r].
Qed.

Lemma X19_provided_falsy_title_is_empty_witness :
  field body_zero_title "title" = VInt 0
  ∧ field body_zero_title "completed" = VBool true
  ∧ TaskById_put env2 "t1" alice body_zero_title world1
    = (Raise (InputValidationError msg_title_empty_if_provided), world1).
Proof.
  do 2 (split; [reflexivity|]).
  apply (X19_provided_falsy_title_is_empty env2 "t1" alice body_zero_title
           world1); [discriminate|by left].
Defined.

(** ** Saving and fetching *)

(** X20: saving and fetching: [save_task] returns the task stamped with the
    time of the save; [get_task_by_id] on its identifier then returns that
    record if it is active and nothing if it is not; tasks under other
    identifiers are fetched as before; saving the same task twice leaves
    the table as after the first save. *)
Theorem X20_save_then_get env t w :
  (TaskService.save_task env t w).1 = Return (set_changed_on (now env) t)
  ∧ (TaskService.get_task_by_id (entity_id t)
       (TaskService.save_task env t w).2).1
    = Return (if active t then Some (set_changed_on (now env) t) else None)
  ∧ (∀ k, k ≠ entity_id t →
       (TaskService.get_task_by_id k (TaskService.save_task env t w).2).1
       = (TaskService.get_task_by_id k w).1)
  ∧ task_table (TaskService.save_task env t
                  (TaskService.save_task env t w).2).2
    = task_table (TaskService.save_task env t w).2.
Proof.
  unfold TaskService.save_task, TaskService.get_task_by_id. unfold_M.
  cbn [fst snd task_table logged].
  split; [done|]. split; [by rewrite lookup_insert_eq; destruct t|].
  split; [intros k Hk; by rewrite lookup_insert_ne|].
  apply insert_insert_eq.
Qed.
